(** * compress-image: preprocessing, orchestration and progress estimation

    A shallow embedding of the image pipeline of the repository:

    - the tRPC procedure [compressRouter.compress]
      (src/server/api/routers/compress.ts),
    - the REST handler [POST] (the route handler that disambiguates the
      conversion response and checks PNG sizes),
    - the two preprocessors [preprocessImage] (the worker of
      src/workers/imagePreprocess.ts and the one of the page component),
    - the progress animations [animate] and [updateProgress] of the page
      components.

    JavaScript numbers: byte lengths and pixel dimensions are integers
    ([Z]).  The compression ratio, whose value depends on how the product
    is rounded, is computed in double precision ([Double], binary64 with
    rounding to nearest even).  The quotients of pixel dimensions, of the
    PNG size check and of the progress values are exact rationals ([Q])
    extended, where the divisor can be zero, by the three non-finite
    values of IEEE arithmetic.  Signed zeros are not distinguished in the
    values that are returned. *)

From Stdlib Require Import ZArith QArith Qround Qminmax Lia Lqa List Sorted String Ascii Bool.
From Stdlib Require Import Strings.Byte.
From Stdlib Require Import Floats.SpecFloat.
Import ListNotations.

Local Open Scope Z_scope.

(** ** JavaScript numbers *)

Module JS.

(** A [number]: a finite value or one of the non-finite ones. *)
Inductive number : Type :=
| Finite (q : Q)
| PosInfinity
| NegInfinity
| NaN.

Definition of_Z (z : Z) : number := Finite (inject_Z z).

(** [a / b]: division by zero yields an infinity of the sign of the
    dividend, and NaN for 0/0. *)
Definition div (a b : number) : number :=
  match a, b with
  | Finite x, Finite y =>
      if Qeq_bool y 0 then
        match Qcompare x 0 with
        | Eq => NaN
        | Gt => PosInfinity
        | Lt => NegInfinity
        end
      else Finite (x / y)
  | Finite _, (PosInfinity | NegInfinity) => Finite 0
  | PosInfinity, Finite y => if Qle_bool 0 y then PosInfinity else NegInfinity
  | NegInfinity, Finite y => if Qle_bool 0 y then NegInfinity else PosInfinity
  | _, _ => NaN
  end.

(** [a * b]. *)
Definition mul (a b : number) : number :=
  match a, b with
  | Finite x, Finite y => Finite (x * y)
  | NaN, _ | _, NaN => NaN
  | Finite x, PosInfinity | PosInfinity, Finite x =>
      match Qcompare x 0 with
      | Eq => NaN
      | Gt => PosInfinity
      | Lt => NegInfinity
      end
  | Finite x, NegInfinity | NegInfinity, Finite x =>
      match Qcompare x 0 with
      | Eq => NaN
      | Gt => NegInfinity
      | Lt => PosInfinity
      end
  | PosInfinity, PosInfinity | NegInfinity, NegInfinity => PosInfinity
  | PosInfinity, NegInfinity | NegInfinity, PosInfinity => NegInfinity
  end.

(** [a < b]: false as soon as one side is NaN. *)
Definition lt (a b : number) : bool :=
  match a, b with
  | NaN, _ | _, NaN => false
  | Finite x, Finite y => negb (Qle_bool y x)
  | NegInfinity, (Finite _ | PosInfinity) => true
  | Finite _, PosInfinity => true
  | _, _ => false
  end.

(** [Math.round]: the nearest integer, ties towards +Infinity. *)
Definition round_half_up (q : Q) : Z := Qfloor (q + (1 # 2)).

Definition Math_round (a : number) : number :=
  match a with
  | Finite q => of_Z (round_half_up q)
  | other => other
  end.

End JS.

(** ** Double precision *)

(** The numbers of JavaScript as binary64 values, with the operations of
    IEEE 754 that round to the nearest value, ties to even. *)
Module Double.

Definition prec : Z := 53.
Definition emax : Z := 1024.

(** The double of an integer: the integer itself below 2^53 in absolute
    value, as for every length of a buffer. *)
Definition of_Z (z : Z) : spec_float := binary_normalize prec emax z 0 false.

Definition sub (x y : spec_float) : spec_float := SFsub prec emax x y.
Definition div (x y : spec_float) : spec_float := SFdiv prec emax x y.
Definition mul (x y : spec_float) : spec_float := SFmul prec emax x y.

(** The rational that a finite double stands for. *)
Definition value (s : bool) (m : positive) (e : Z) : Q :=
  let magnitude :=
    match e with
    | Zneg p => Zpos m # (2 ^ p)
    | _ => inject_Z (Zpos m * 2 ^ e)
    end in
  if s then Qopp magnitude else magnitude.

(** [Math.round]: the integer nearest to the value of the double, ties
    towards +Infinity. *)
Definition Math_round (x : spec_float) : JS.number :=
  match x with
  | S754_zero _ => JS.of_Z 0
  | S754_infinity false => JS.PosInfinity
  | S754_infinity true => JS.NegInfinity
  | S754_nan => JS.NaN
  | S754_finite s m e => JS.of_Z (JS.round_half_up (value s m e))
  end.

End Double.

(** The expression [Math.round(((a - b) / a) * 100)] on two byte lengths,
    as every result object of the repository writes it: the difference,
    the quotient and the product are doubles. *)
Definition percent_of_difference (a b : Z) : JS.number :=
  Double.Math_round
    (Double.mul
       (Double.div (Double.sub (Double.of_Z a) (Double.of_Z b)) (Double.of_Z a))
       (Double.of_Z 100)).


(** ** Strings and buffers *)

(** [s.includes(sub)]. *)
Fixpoint includes (s sub : string) : bool :=
  if String.prefix sub s then true
  else match s with
       | EmptyString => false
       | String _ rest => includes rest sub
       end.

(** A string is falsy exactly when it is empty. *)
Definition truthy (s : string) : bool :=
  match s with
  | EmptyString => false
  | String _ _ => true
  end.

(** [a || b] on an optional string: [a] unless it is undefined or empty. *)
Definition or_default (a : option string) (b : string) : string :=
  match a with
  | Some s => if truthy s then s else b
  | None => b
  end.

Definition byteLength (b : list byte) : Z := Z.of_nat (List.length b).

Definition base64_alphabet : string :=
  "ABCDEFGHIJKLMNOPQRSTUVWXYZabcdefghijklmnopqrstuvwxyz0123456789+/".

Definition base64_digit (n : N) : ascii :=
  match String.get (N.to_nat n) base64_alphabet with
  | Some c => c
  | None => "="%char
  end.

(** [Buffer.from(b).toString("base64")]. *)
Fixpoint toString_base64 (b : list byte) : string :=
  match b with
  | [] => EmptyString
  | [x] =>
      let n := (Byte.to_N x * 65536)%N in
      String (base64_digit (n / 262144))
        (String (base64_digit ((n / 4096) mod 64)) "==")
  | [x; y] =>
      let n := (Byte.to_N x * 65536 + Byte.to_N y * 256)%N in
      String (base64_digit (n / 262144))
        (String (base64_digit ((n / 4096) mod 64))
           (String (base64_digit ((n / 64) mod 64)) "="))
  | x :: y :: z :: rest =>
      let n := (Byte.to_N x * 65536 + Byte.to_N y * 256 + Byte.to_N z)%N in
      String (base64_digit (n / 262144))
        (String (base64_digit ((n / 4096) mod 64))
           (String (base64_digit ((n / 64) mod 64))
              (String (base64_digit (n mod 64)) (toString_base64 rest))))
  end.

(** ** Requests of the pipeline *)

(** The members of [SUPPORTED_MIME_TYPES]; the input schema ([z.enum])
    admits no other value for [mimeType] and [outputFormat]. *)
Inductive mime : Type :=
| image_png
| image_jpeg
| image_jpg
| image_webp
| image_avif.

Definition mime_string (m : mime) : string :=
  match m with
  | image_png => "image/png"
  | image_jpeg => "image/jpeg"
  | image_jpg => "image/jpg"
  | image_webp => "image/webp"
  | image_avif => "image/avif"
  end.

(** [a === b] on two members of the enumeration. *)
Definition mime_eqb (a b : mime) : bool :=
  String.eqb (mime_string a) (mime_string b).

Inductive resize_method : Type := fit | cover | contain.

Record resize_options : Type := mkResize {
  resize_width : option Q;
  resize_height : option Q;
  resize_method_of : option resize_method
}.

Record compression_options : Type := mkOptions {
  quality : option Q;
  preserveMetadata : option bool;
  resize : option resize_options;
  convertAutomatically : option bool
}.

(** The input of both orchestrators, after schema validation. *)
Record compression_input : Type := mkInput {
  imageUrl : string;
  filename : string;
  mimeType : mime;
  outputFormat : mime;
  options : option compression_options
}.

(** [TinyPNGOptions], the JSON body of the conversion request. *)
Record TinyPNGOptions : Type := mkApiOptions {
  api_resize : option resize_options;
  api_preserve : list string;
  api_convert : option mime
}.

(** The result object; [compressionRatio] is the only field computed with
    a division. *)
Record CompressionResult : Type := mkResult {
  success : bool;
  originalSize : Z;
  compressedSize : Z;
  savedBytes : Z;
  compressionRatio : JS.number;
  compressedImage : string;
  originalType : string;
  outputType : string
}.

(** ** The remote service *)

Inductive http_method : Type := Get | Post.

Inductive request_body : Type :=
| NoBody
| RawBody (bytes : list byte)
| JsonBody (o : TinyPNGOptions).

(** One call of [fetch]: the URL, the method, the body, the
    Content-Type header if one is set, and whether the Basic
    Authorization header with the API key is set. *)
Record request : Type := mkRequest {
  req_url : string;
  req_method : http_method;
  req_body : request_body;
  req_content_type : option string;
  req_authorization : bool
}.

(** [TinyPNGResponse.output]. *)
Record tiny_output : Type := mkOutput {
  out_url : string;
  out_size : Z;
  out_type : string
}.

(** What the handlers read of a parsed JSON body that is not null:
    [message] of an error body, [output] of a descriptor; either may be
    missing, as both are in a body that is a number, a text or an
    array. *)
Record json_value : Type := mkJson {
  json_message : option string;
  json_output : option tiny_output
}.

(** [response.json()] rejects with a SyntaxError when the body is not
    JSON; it resolves with null when the body is the JSON text null. *)
Inductive parse_result : Type :=
| Malformed (message : string)
| ParsedNull
| Parsed (v : json_value).

Record response : Type := mkResponse {
  ok : bool;
  content_type : option string;   (* headers.get("content-type") *)
  body : list byte;                (* arrayBuffer() *)
  json : parse_result              (* json() *)
}.

(** [fetch] rejects on a network failure and resolves with a response
    otherwise, whatever its status. *)
Inductive fetch_result : Type :=
| NetworkError (message : string)
| Responds (r : response).

(** The world outside the process: it answers a request knowing the
    requests made before it (oldest first). *)
Definition world : Type := list request -> request -> fetch_result.

(** ** Exceptions and the orchestration monad *)

Inductive trpc_code : Type := BAD_REQUEST | INTERNAL_SERVER_ERROR.

(** The values thrown inside the handlers: a [TRPCError] or a plain
    [Error] (TypeError, SyntaxError, fetch failure). *)
Inductive exn : Type :=
| TRPCError (code : trpc_code) (message : string)
| Error (message : string).

Inductive outcome (A : Type) : Type :=
| Returned (a : A)
| Thrown (e : exn).
Arguments Returned {A} a.
Arguments Thrown {A} e.

(** An asynchronous computation: it reads the world, extends the log of
    the requests made so far, and returns or throws. *)
Definition M (A : Type) : Type :=
  world -> list request -> outcome A * list request.

Definition ret {A} (a : A) : M A := fun _ log => (Returned a, log).

Definition throw {A} (e : exn) : M A := fun _ log => (Thrown e, log).

Definition bind {A B} (m : M A) (k : A -> M B) : M B :=
  fun w log =>
    match m w log with
    | (Returned a, log') => k a w log'
    | (Thrown e, log') => (Thrown e, log')
    end.

(** [try { m } catch (error) { h error }]. *)
Definition try_catch {A} (m : M A) (h : exn -> M A) : M A :=
  fun w log =>
    match m w log with
    | (Returned a, log') => (Returned a, log')
    | (Thrown e, log') => h e w log'
    end.

Notation "'let*' x ':=' m 'in' k" := (bind m (fun x => k))
  (at level 10, x name, m at level 100, k at level 200).

(** [await fetch(...)]. *)
Definition fetch (r : request) : M response :=
  fun w log =>
    match w log r with
    | NetworkError msg => (Thrown (Error msg), log ++ [r])
    | Responds resp => (Returned resp, log ++ [r])
    end.

(** [await response.json()]: the parsed body, [None] being null. *)
Definition json_of (r : response) : M (option json_value) :=
  match json r with
  | Malformed msg => throw (Error msg)
  | ParsedNull => ret None
  | Parsed v => ret (Some v)
  end.

(** [errorData.message]: a TypeError when [errorData] is null. *)
Definition message_of (errorData : option json_value) : M (option string) :=
  match errorData with
  | Some v => ret (json_message v)
  | None => throw (Error "Cannot read properties of null (reading 'message')")
  end.

(** [data.output.url]: a TypeError when [data] is null or [output] is
    undefined. *)
Definition output_url (data : option json_value) : M string :=
  match data with
  | Some v =>
      match json_output v with
      | Some o => ret (out_url o)
      | None =>
          throw (Error "Cannot read properties of undefined (reading 'url')")
      end
  | None => throw (Error "Cannot read properties of null (reading 'output')")
  end.

(** [contentType?.includes("application/json")], where [contentType] is
    null when the header is absent. *)
Definition is_json_content_type (contentType : option string) : bool :=
  match contentType with
  | Some s => includes s "application/json"
  | None => false
  end.

(** The data URI [`data:${type};base64,${payload}`]. *)
Definition data_uri (type : mime) (payload : list byte) : string :=
  ("data:" ++ mime_string type ++ ";base64," ++ toString_base64 payload)%string.

Definition shrink_url : string := "https://api.tinify.com/shrink".

(** The four calls of [fetch] that the orchestrators make. *)

(** [fetch(input.imageUrl)]. *)
Definition source_request (input : compression_input) : request :=
  mkRequest (imageUrl input) Get NoBody None false.

(** [fetch("https://api.tinify.com/shrink", { method: "POST", body,
    headers: { Authorization, "Content-Type": input.mimeType } })]. *)
Definition shrink_request (input : compression_input) (imageBuffer : list byte)
  : request :=
  mkRequest shrink_url Post (RawBody imageBuffer)
    (Some (mime_string (mimeType input))) true.

(** [fetch(url, { method: "POST", body: JSON.stringify(apiOptions),
    headers: { "Content-Type": "application/json", Authorization } })]. *)
Definition convert_request (url : string) (apiOptions : TinyPNGOptions)
  : request :=
  mkRequest url Post (JsonBody apiOptions) (Some "application/json"%string) true.

(** [fetch(url)], or [fetch(url, { headers: { Authorization } })]. *)
Definition download_request (url : string) (authorization : bool) : request :=
  mkRequest url Get NoBody None authorization.

(** ** compressRouter.compress (src/server/api/routers/compress.ts) *)

Module Router.

(** [apiOptions], with [convert] set when the formats differ. *)
Definition apiOptions_of (input : compression_input) : TinyPNGOptions :=
  mkApiOptions
    (match options input with Some o => resize o | None => None end)
    (match options input with
     | Some o =>
         match preserveMetadata o with
         | Some true => ["copyright"; "creation"; "location"]%string
         | _ => []
         end
     | None => []
     end)
    (if negb (mime_eqb (outputFormat input) (mimeType input))
     then Some (outputFormat input) else None).

(** The body of the [try] block. *)
Definition compress_body (input : compression_input) : M CompressionResult :=
  let* imageResponse := fetch (source_request input) in
  if negb (ok imageResponse) then throw (Error "Failed to fetch image from URL")
  else
  let imageBuffer := body imageResponse in
  let apiOptions := apiOptions_of input in
  let* response := fetch (shrink_request input imageBuffer) in
  if negb (ok response) then
    let* errorData := json_of response in
    let* errorData_message := message_of errorData in
    throw (TRPCError BAD_REQUEST
             (or_default errorData_message "Failed to compress image"))
  else
  let* data := json_of response in
  let* data_output_url := output_url data in
  let finish (finalUrl : string) : M CompressionResult :=
    let* compressedImageResponse := fetch (download_request finalUrl false) in
    if negb (ok compressedImageResponse) then
      throw (TRPCError INTERNAL_SERVER_ERROR "Failed to fetch compressed image")
    else
    let compressedImageBuffer := body compressedImageResponse in
    let result :=
      mkResult true
        (byteLength imageBuffer)
        (byteLength compressedImageBuffer)
        (Z.max 0 (byteLength imageBuffer - byteLength compressedImageBuffer))
        (percent_of_difference (byteLength imageBuffer)
           (byteLength compressedImageBuffer))
        (data_uri (outputFormat input) compressedImageBuffer)
        (mime_string (mimeType input))
        (mime_string (outputFormat input)) in
    if negb (truthy (compressedImage result)) then
      throw (TRPCError INTERNAL_SERVER_ERROR "Failed to generate compressed image")
    else ret result in
  match api_convert apiOptions with
  | Some _ =>
      let* convertResponse := fetch (convert_request data_output_url apiOptions) in
      if negb (ok convertResponse) then
        throw (TRPCError BAD_REQUEST "Failed to convert image format")
      else
      let contentType := content_type convertResponse in
      if is_json_content_type contentType then
        let* convertData := json_of convertResponse in
        let* finalUrl := output_url convertData in
        finish finalUrl
      else
        (* this [imageBuffer] shadows the one of the source image *)
        let imageBuffer := body convertResponse in
        ret (mkResult true
               (byteLength imageBuffer)
               (byteLength imageBuffer)
               0
               (JS.of_Z 0)
               (data_uri (outputFormat input) imageBuffer)
               (mime_string (mimeType input))
               (mime_string (outputFormat input)))
  | None => finish data_output_url
  end.

(** The mutation: a [TRPCError] is thrown again as it is, anything else
    is wrapped into an INTERNAL_SERVER_ERROR carrying its message. *)
Definition compress (input : compression_input) : M CompressionResult :=
  try_catch (compress_body input)
    (fun error =>
       match error with
       | TRPCError _ _ => throw error
       | Error message => throw (TRPCError INTERNAL_SERVER_ERROR message)
       end).

End Router.

(** ** The REST handler POST (route handler of /api/compress) *)

Module Route.

(** The body of a [NextResponse.json(...)]. *)
Inductive reply : Type :=
| ErrorBody (error : string)
| ResultBody (r : CompressionResult).

Record NextResponse : Type := mkNext {
  status : Z;
  payload : reply
}.

Definition error_response (error : string) (status : Z) : NextResponse :=
  mkNext status (ErrorBody error).

(** [finalImageBuffer.byteLength / imageBuffer.byteLength < 0.8]. *)
Definition suspicious_png (finalLength originalLength : Z) : bool :=
  let sizeRatio := JS.div (JS.of_Z finalLength) (JS.of_Z originalLength) in
  JS.lt sizeRatio (JS.Finite (8 # 10)).

(** The success object of the conversion branch and of the plain branch;
    they differ in the type written into the data URI and [outputType]. *)
Definition success_result (imageBuffer finalBuffer : list byte)
    (uriType originalT outputT : mime) : CompressionResult :=
  mkResult true
    (byteLength imageBuffer)
    (byteLength finalBuffer)
    (Z.max 0 (byteLength imageBuffer - byteLength finalBuffer))
    (percent_of_difference (byteLength imageBuffer) (byteLength finalBuffer))
    (data_uri uriType finalBuffer)
    (mime_string originalT)
    (mime_string outputT).

(** [apiOptions] of the conversion branch. *)
Definition apiOptions_of (validatedInput : compression_input) : TinyPNGOptions :=
  mkApiOptions None ["copyright"; "creation"; "location"]%string
    (Some (outputFormat validatedInput)).

(** The body of the [try] block, [validatedInput] being the parsed
    request. *)
Definition POST_body (validatedInput : compression_input) : M NextResponse :=
  let* imageResponse := fetch (source_request validatedInput) in
  if negb (ok imageResponse) then ret (error_response "Failed to fetch image" 400)
  else
  let imageBuffer := body imageResponse in
  let* response := fetch (shrink_request validatedInput imageBuffer) in
  if negb (ok response) then
    let* errorData := json_of response in
    let* errorData_message := message_of errorData in
    ret (error_response
           (or_default errorData_message "Failed to compress image") 400)
  else
  let* data := json_of response in
  if negb (mime_eqb (outputFormat validatedInput) (mimeType validatedInput)) then
    let apiOptions := apiOptions_of validatedInput in
    let* data_output_url := output_url data in
    let* convertResponse := fetch (convert_request data_output_url apiOptions) in
    if negb (ok convertResponse) then
      ret (error_response "Failed to convert image format" 400)
    else
    let contentType := content_type convertResponse in
    let check (finalImageBuffer : list byte) : M NextResponse :=
      if mime_eqb (outputFormat validatedInput) image_png
         && suspicious_png (byteLength finalImageBuffer) (byteLength imageBuffer)
      then
        ret (error_response
               "PNG conversion resulted in unexpected quality loss" 400)
      else
        ret (mkNext 200
               (ResultBody
                  (success_result imageBuffer finalImageBuffer
                     (outputFormat validatedInput)
                     (mimeType validatedInput)
                     (outputFormat validatedInput)))) in
    if is_json_content_type contentType then
      let* convertData := json_of convertResponse in
      let* convertData_output_url := output_url convertData in
      let* imageResponse := fetch (download_request convertData_output_url true) in
      if negb (ok imageResponse) then
        ret (error_response "Failed to fetch converted image" 400)
      else check (body imageResponse)
    else check (body convertResponse)
  else
    let* data_output_url := output_url data in
    let* compressedImageResponse := fetch (download_request data_output_url true) in
    if negb (ok compressedImageResponse) then
      ret (error_response "Failed to fetch compressed image" 400)
    else
    let compressedImageBuffer := body compressedImageResponse in
    ret (mkNext 200
           (ResultBody
              (success_result imageBuffer compressedImageBuffer
                 (mimeType validatedInput)
                 (mimeType validatedInput)
                 (mimeType validatedInput)))).

(** The handler: every exception becomes a reply of status 500. *)
Definition POST (validatedInput : compression_input) : M NextResponse :=
  try_catch (POST_body validatedInput)
    (fun error =>
       match error with
       | TRPCError _ message | Error message => ret (error_response message 500)
       end).

End Route.

(** ** The browser side: blobs, bitmaps and canvases *)

(** A [Blob] as the page sees it: its size, its type, and the immutable
    byte sequence it stands for, which the code never reads itself and
    which is identified here by a handle. *)
Record Blob : Type := mkBlob {
  size : Z;
  type : string;
  bytes : N
}.

(** A [File] is a [Blob] with a name. *)
Record File : Type := mkFile {
  name : string;
  blob : Blob
}.

(** [new File([b], name, { type })]. *)
Definition new_File (b : Blob) (name : string) (type : string) : File :=
  mkFile name (mkBlob (size b) type (bytes b)).

Record ImageBitmap : Type := mkBitmap {
  width : Z;
  height : Z;
  pixels : N
}.

(** A browser call that may throw (or reject) with a message. *)
Inductive attempt (A : Type) : Type :=
| Fails (message : string)
| Succeeds (a : A).
Arguments Fails {A} message.
Arguments Succeeds {A} a.

(** The browser: decoding, the 2d context of a canvas of given
    dimensions, and drawing a bitmap at given dimensions followed by the
    encoding of the canvas at a type and quality ([canvas.toBlob] hands
    null to its callback when it cannot encode, [convertToBlob]
    rejects). *)
Record browser : Type := mkBrowser {
  createImageBitmap : Blob -> attempt ImageBitmap;
  getContext_2d : JS.number -> JS.number -> bool;
  toBlob : ImageBitmap -> JS.number -> JS.number -> string -> Q -> attempt (option Blob);
  convertToBlob : ImageBitmap -> JS.number -> JS.number -> string -> Q -> attempt Blob
}.

Definition maxDim : Z := 2048.

(** The computation of the new dimensions, written alike in both
    preprocessors:
    [if (width > maxDim || height > maxDim) { if (width > height) ... }]. *)
Definition new_dimensions (img : ImageBitmap) : JS.number * JS.number :=
  let width := JS.of_Z (width img) in
  let height := JS.of_Z (height img) in
  if JS.lt (JS.of_Z maxDim) width || JS.lt (JS.of_Z maxDim) height then
    if JS.lt height width then
      (JS.of_Z maxDim,
       JS.Math_round (JS.mul (JS.div height width) (JS.of_Z maxDim)))
    else
      (JS.Math_round (JS.mul (JS.div width height) (JS.of_Z maxDim)),
       JS.of_Z maxDim)
  else (width, height).

Definition five_MiB : Z := 5 * 1024 * 1024.

(** ** The worker (src/workers/imagePreprocess.ts) *)

Module Worker.

Definition preprocessImage (env : browser) (file : Blob) : attempt Blob :=
  if size file <=? five_MiB then Succeeds file
  else
    match createImageBitmap env file with
    | Fails message => Fails message
    | Succeeds img =>
        let (width, height) := new_dimensions img in
        if negb (getContext_2d env width height) then
          Fails "Failed to get canvas context"
        else convertToBlob env img width height (type file) (8 # 10)
    end.

(** What the worker posts back. *)
Inductive posted : Type :=
| PostBlob (processedFile : Blob)
| PostError (error : string).

Definition onmessage (env : browser) (file : Blob) : posted :=
  match preprocessImage env file with
  | Succeeds processedFile => PostBlob processedFile
  | Fails message => PostError message
  end.

End Worker.

(** ** The page component Home *)

Module Home.

(** [try { ... } catch (error) { return file; }] around the decoding and
    the encoding. *)
Definition preprocessImage (env : browser) (file : File) : attempt File :=
  if size (blob file) <=? five_MiB then Succeeds file
  else
    let attempted :=
      match createImageBitmap env (blob file) with
      | Fails message => Fails message
      | Succeeds img =>
          let (width, height) := new_dimensions img in
          if negb (getContext_2d env width height) then
            Fails "Failed to get canvas context"
          else
            match toBlob env img width height (type (blob file)) (8 # 10) with
            | Fails message => Fails message
            | Succeeds b =>
                let resolved :=   (* b ?? file *)
                  match b with
                  | Some encoded => encoded
                  | None => blob file
                  end in
                Succeeds (new_File resolved (name file) (type (blob file)))
            end
      end in
    match attempted with
    | Succeeds processed => Succeeds processed
    | Fails _ => Succeeds file
    end.

(** The React state of the component, with the variable [start] that
    [animate] captures and whether a callback is registered with
    [requestAnimationFrame]. *)
Inductive stage_name : Type := idle | uploading | compressing | downloading.

Record state : Type := mkState {
  isLoading : bool;
  error : option string;
  compressionResult : option CompressionResult;
  progress : Q;
  stage : stage_name;
  start : option Q;
  frame_requested : bool
}.

Definition duration : Q := 3000.

(** [animate(timestamp)]; [!start] holds of null and of 0. *)
Definition animate (timestamp : Q) (st : state) : state :=
  let start :=
    match start st with
    | Some s => if Qeq_bool s 0 then timestamp else s
    | None => timestamp
    end in
  let elapsed := (timestamp - start)%Q in
  let progress := Qmin (elapsed / duration * 95) 95 in
  mkState (isLoading st) (error st) (compressionResult st)
    progress (stage st) (Some start)
    (negb (Qle_bool 95 progress)).   (* if (progress < 95) requestAnimationFrame(animate) *)

(** [setStage("compressing"); setProgress(0); ...;
    requestAnimationFrame(animate)] of [handleFileSelect]. *)
Definition begin_compressing (st : state) : state :=
  mkState (isLoading st) (error st) (compressionResult st)
    0 compressing None true.

(** [compressMutation.onSuccess]. *)
Definition onSuccess (data : CompressionResult) (st : state) : state :=
  mkState false (error st) (Some data) 100 idle (start st) (frame_requested st).

(** [compressMutation.onError]. *)
Definition onError (message : string) (st : state) : state :=
  mkState false (Some message) (compressionResult st) (progress st) idle
    (start st) (frame_requested st).

(** What can happen while the mutation is in flight. *)
Inductive event : Type :=
| AnimationFrame (timestamp : Q)
| MutationSuccess (data : CompressionResult)
| MutationError (message : string).

Definition step (st : state) (ev : event) : state :=
  match ev with
  | AnimationFrame timestamp =>
      if frame_requested st then animate timestamp st else st
  | MutationSuccess data => onSuccess data st
  | MutationError message => onError message st
  end.

Definition run (evs : list event) (st : state) : state :=
  fold_left step evs st.

Definition is_success (ev : event) : bool :=
  match ev with
  | MutationSuccess _ => true
  | _ => false
  end.

(** The values of [progress] that the page shows, one after each event. *)
Fixpoint progress_trace (evs : list event) (st : state) : list Q :=
  match evs with
  | [] => []
  | ev :: rest => progress (step st ev) :: progress_trace rest (step st ev)
  end.

End Home.

(** ** The page component that uploads the file first *)

Module HomeUpload.

Record state : Type := mkState {
  isLoading : bool;
  error : option string;
  compressionResult : option CompressionResult;
  progress : Q;
  stage : Home.stage_name;
  startTime : Z;
  frame_requested : bool
}.

Definition minTime : Z := 15000.
Definition maxTime : Z := 20000.
Definition targetProgress : Q := 99.

(** [updateProgress()], [now] being the value of [Date.now()]. *)
Definition updateProgress (now : Z) (st : state) : state :=
  let elapsed := now - startTime st in
  let progress :=
    Qmin (30 + inject_Z elapsed / inject_Z minTime * 69) targetProgress in
  mkState (isLoading st) (error st) (compressionResult st)
    progress (stage st) (startTime st)
    ((elapsed <? maxTime) && negb (Qle_bool targetProgress progress)).

(** [setStage("compressing"); const startTime = Date.now(); ...;
    animationFrame = requestAnimationFrame(updateProgress)]. *)
Definition begin_compressing (now : Z) (st : state) : state :=
  mkState (isLoading st) (error st) (compressionResult st)
    (progress st) Home.compressing now true.

(** The end of the [try] block: [cancelAnimationFrame(animationFrame);
    setCompressionResult(result); ...; setProgress(100)]. *)
Definition completed (result : CompressionResult) (st : state) : state :=
  mkState false (error st) (Some result) 100 Home.idle (startTime st) false.

(** The [catch] block. *)
Definition failed (message : string) (st : state) : state :=
  mkState false (Some message) (compressionResult st) (progress st) Home.idle
    (startTime st) (frame_requested st).

Inductive event : Type :=
| AnimationFrame (now : Z)
| Completed (result : CompressionResult)
| Failed (message : string).

Definition step (st : state) (ev : event) : state :=
  match ev with
  | AnimationFrame now =>
      if frame_requested st then updateProgress now st else st
  | Completed result => completed result st
  | Failed message => failed message st
  end.

Definition run (evs : list event) (st : state) : state :=
  fold_left step evs st.

Definition is_completion (ev : event) : bool :=
  match ev with
  | Completed _ => true
  | _ => false
  end.

(** The values of [progress] that the page shows, one after each event. *)
Fixpoint progress_trace (evs : list event) (st : state) : list Q :=
  match evs with
  | [] => []
  | ev :: rest => progress (step st ev) :: progress_trace rest (step st ev)
  end.

End HomeUpload.

(** ** Scenarios and sample worlds *)

(** A request of the conversion phase carries the JSON options. *)
Definition is_conversion_call (r : request) : bool :=
  match req_body r with
  | JsonBody _ => true
  | _ => false
  end.

(** Phase 1 went through: the source was fetched and the shrink call
    answered with a descriptor [out]. *)
Definition phase1_succeeds (w : world) (input : compression_input)
    (source shrunk : response) (out : tiny_output) : Prop :=
  w [] (source_request input) = Responds source /\
  ok source = true /\
  w [source_request input] (shrink_request input (body source)) = Responds shrunk /\
  ok shrunk = true /\
  exists data, json shrunk = Parsed data /\ json_output data = Some out.

(** The conversion call was answered with a success status. *)
Definition conversion_answered (w : world) (input : compression_input)
    (source : response) (out : tiny_output) (apiOptions : TinyPNGOptions)
    (converted : response) : Prop :=
  w [source_request input; shrink_request input (body source)]
    (convert_request (out_url out) apiOptions) = Responds converted /\
  ok converted = true.

(** The bytes that a successful conversion ends with in the REST handler:
    the body of the conversion response itself, or the body fetched from
    the location of the descriptor it carries. *)
Definition converted_bytes (w : world) (input : compression_input)
    (source : response) (out : tiny_output) (apiOptions : TinyPNGOptions)
    (converted : response) (final : list byte) : Prop :=
  (is_json_content_type (content_type converted) = false /\
   final = body converted) \/
  (is_json_content_type (content_type converted) = true /\
   exists data out' downloaded,
     json converted = Parsed data /\ json_output data = Some out' /\
     w [source_request input; shrink_request input (body source);
        convert_request (out_url out) apiOptions]
       (download_request (out_url out') true) = Responds downloaded /\
     ok downloaded = true /\
     final = body downloaded).

Module Samples.

(** A world that answers the n-th request with the n-th entry of a
    script, and fails afterwards. *)
Definition scripted (answers : list fetch_result) : world :=
  fun log _ => nth (List.length log) answers (NetworkError "fetch failed").

(** A success response carrying an image. *)
Definition image (type : string) (bytes : list byte) : response :=
  mkResponse true (Some type) bytes (Malformed "Unexpected token in JSON").

(** A success response carrying a descriptor. *)
Definition descriptor (out : tiny_output) : response :=
  mkResponse true (Some "application/json"%string) []
    (Parsed (mkJson None (Some out))).

(** An error response with an optional JSON message. *)
Definition rejection (message : option string) : response :=
  mkResponse false (Some "application/json"%string) []
    (Parsed (mkJson message None)).

(** An error response whose body is not JSON. *)
Definition gateway_error : response :=
  mkResponse false (Some "text/html"%string) []
    (Malformed "Unexpected token < in JSON at position 0").

Definition jpeg_to_jpeg : compression_input :=
  mkInput "https://blob.example/a.jpg" "a.jpg" image_jpeg image_jpeg None.

Definition webp_to_png : compression_input :=
  mkInput "https://blob.example/a.webp" "a.webp" image_webp image_png None.

Definition jpeg_to_png : compression_input :=
  mkInput "https://blob.example/a.jpg" "a.jpg" image_jpeg image_png None.

Definition shrunk_location : tiny_output :=
  mkOutput "https://api.tinify.com/output/1" 3 "image/jpeg".

Definition converted_location : tiny_output :=
  mkOutput "https://api.tinify.com/output/2" 3 "image/png".

(** The service hands back three bytes for a source of two bytes. *)
Definition growing : world :=
  scripted [Responds (image "image/jpeg" [x00; x01]);
            Responds (descriptor shrunk_location);
            Responds (image "image/jpeg" [x00; x01; x02])].

(** A conversion answered by a descriptor; the converted image has three
    bytes for a source of two, as when a photograph becomes a PNG. *)
Definition enlarging : world :=
  scripted [Responds (image "image/jpeg" [x00; x01]);
            Responds (descriptor shrunk_location);
            Responds (descriptor converted_location);
            Responds (image "image/png" [x00; x01; x02])].

(** A conversion answered by a descriptor; the converted image has three
    bytes for a source of ten. *)
Definition shrinking_json : world :=
  scripted [Responds (image "image/webp" (repeat x00 10));
            Responds (descriptor shrunk_location);
            Responds (descriptor converted_location);
            Responds (image "image/png" [x02; x03; x04])].

(** A conversion answered by the image itself. *)
Definition shrinking_binary : world :=
  scripted [Responds (image "image/webp" (repeat x00 10));
            Responds (descriptor shrunk_location);
            Responds (image "image/png" [x02; x03; x04])].

(** The shrink call is refused with a message, without one, and with a
    body that is not JSON. *)
Definition refusing (answer : response) : world :=
  scripted [Responds (image "image/webp" (repeat x00 10)); Responds answer].

(** A browser that cannot decode anything. *)
Definition undecoding : browser :=
  mkBrowser
    (fun _ => Fails "The source image could not be decoded.")
    (fun _ _ => true)
    (fun _ _ _ _ _ => Fails "The canvas has no image.")
    (fun _ _ _ _ _ => Fails "The canvas has no image.").

(** A browser that decodes every blob to the bitmap [img] and encodes
    every canvas to a blob whose size is the number of its pixels. *)
Definition rendering (img : ImageBitmap) : browser :=
  let encode (w h : JS.number) (type : string) : Blob :=
    match w, h with
    | JS.Finite x, JS.Finite y => mkBlob (Qfloor (x * y)) type 2
    | _, _ => mkBlob 0 type 2
    end in
  mkBrowser
    (fun _ => Succeeds img)
    (fun _ _ => true)
    (fun _ w h type _ => Succeeds (Some (encode w h type)))
    (fun _ w h type _ => Succeeds (encode w h type)).

(** A photograph of 6 MiB, 4096 pixels wide and 2048 pixels high, and a
    small one. *)
Definition large_photo : File :=
  mkFile "photo.jpg" (mkBlob (6 * 1024 * 1024) "image/jpeg" 1).

Definition large_bitmap : ImageBitmap := mkBitmap 4096 2048 1.

Definition small_photo : File :=
  mkFile "small.jpg" (mkBlob (3 * 1024 * 1024) "image/jpeg" 3).

(** The state of a page before anything was selected. *)
Definition home_initial : Home.state :=
  Home.mkState false None None 0 Home.idle None false.

(** The state of the uploading page when the upload has just finished. *)
Definition upload_finished : HomeUpload.state :=
  HomeUpload.mkState true None None 30 Home.uploading 0 false.

End Samples.

(** ** Invariants of the progress animations *)

(** What the page knows about [progress] after the frame at [last]:
    either [start] is still null or zero and nothing has been shown, or
    [start] is set and the value is at most the one for [last]. *)
Definition home_invariant (st : Home.state) (last : Q) : Prop :=
  ((Home.start st = None \/ exists s, Home.start st = Some s /\ s == 0) /\
   Home.progress st <= 0)%Q \/
  (exists s, Home.start st = Some s /\ ~ s == 0 /\
             Home.progress st <= Qmin ((last - s) / Home.duration * 95) 95)%Q.

(** The same for the uploading page, where the clock starts at
    [startTime]. *)
Definition upload_invariant (st : HomeUpload.state) (last : Z) : Prop :=
  (HomeUpload.progress st <=
   Qmin (30 + inject_Z (last - HomeUpload.startTime st)
              / inject_Z HomeUpload.minTime * 69)
     HomeUpload.targetProgress)%Q.

(** ** The first route handler POST (conversion by GET) *)

Module RouteV1.

(** The body of the [try] block.  The conversion branch fetches the
    location of phase 1 with GET and the Authorization header, and sends
    no options. *)
Definition POST_body (validatedInput : compression_input)
  : M Route.NextResponse :=
  let* imageResponse := fetch (source_request validatedInput) in
  if negb (ok imageResponse) then
    ret (Route.error_response "Failed to fetch image" 400)
  else
  let imageBuffer := body imageResponse in
  let* response := fetch (shrink_request validatedInput imageBuffer) in
  if negb (ok response) then
    let* errorData := json_of response in
    let* errorData_message := message_of errorData in
    ret (Route.error_response
           (or_default errorData_message "Failed to compress image") 400)
  else
  let* data := json_of response in
  if negb (mime_eqb (outputFormat validatedInput) (mimeType validatedInput)) then
    let* data_output_url := output_url data in
    let* convertResponse := fetch (download_request data_output_url true) in
    if negb (ok convertResponse) then
      ret (Route.error_response "Failed to convert image format" 400)
    else
    let compressedImageBuffer := body convertResponse in
    ret (Route.mkNext 200
           (Route.ResultBody
              (Route.success_result imageBuffer compressedImageBuffer
                 (outputFormat validatedInput)
                 (mimeType validatedInput)
                 (outputFormat validatedInput))))
  else
    let* data_output_url := output_url data in
    let* compressedImageResponse := fetch (download_request data_output_url true) in
    if negb (ok compressedImageResponse) then
      ret (Route.error_response "Failed to fetch compressed image" 400)
    else
    let compressedImageBuffer := body compressedImageResponse in
    ret (Route.mkNext 200
           (Route.ResultBody
              (Route.success_result imageBuffer compressedImageBuffer
                 (mimeType validatedInput)
                 (mimeType validatedInput)
                 (mimeType validatedInput)))).

Definition POST (validatedInput : compression_input) : M Route.NextResponse :=
  try_catch (POST_body validatedInput)
    (fun error =>
       match error with
       | TRPCError _ message | Error message =>
           ret (Route.error_response message 500)
       end).

End RouteV1.

(** ** The procedure that receives the image as a data URL *)

Module Legacy.

(** [\w]: a letter, a digit or the underscore. *)
Definition is_word_char (c : ascii) : bool :=
  let n := nat_of_ascii c in
  ((48 <=? n) && (n <=? 57) || (65 <=? n) && (n <=? 90)
   || (97 <=? n) && (n <=? 122) || (n =? 95))%nat.

(** The rest of [s] after the prefix [p], if [s] starts with [p]. *)
Fixpoint after_prefix (p s : string) : option string :=
  match p, s with
  | EmptyString, _ => Some s
  | String a p', String b s' =>
      if Ascii.eqb a b then after_prefix p' s' else None
  | String _ _, EmptyString => None
  end.

(** The rest of [s] after its longest prefix of word characters. *)
Fixpoint after_word (s : string) : string :=
  match s with
  | String c rest => if is_word_char c then after_word rest else s
  | EmptyString => s
  end.

(** [s.replace(/^data:image\/\w+;base64,/, "")]: the run of word
    characters is the longest one, since the character that follows it
    in a match is a semicolon. *)
Definition strip_data_url_prefix (s : string) : string :=
  match after_prefix "data:image/" s with
  | Some rest =>
      match rest with
      | String c _ =>
          if is_word_char c then
            match after_prefix ";base64," (after_word rest) with
            | Some payload => payload
            | None => s
            end
          else s
      | EmptyString => s
      end
  | None => s
  end.

Record legacy_input : Type := mkLegacyInput {
  imageBase64 : string;
  legacy_filename : string;
  legacy_mimeType : mime;
  legacy_outputFormat : mime;
  legacy_options : option compression_options
}.

(** The fields that the requests and [apiOptions] are built from. *)
Definition as_input (input : legacy_input) : compression_input :=
  mkInput EmptyString (legacy_filename input) (legacy_mimeType input)
    (legacy_outputFormat input) (legacy_options input).

(** [data.output], read when [data.output.url] is: a TypeError when
    [data] is null or [output] is undefined. *)
Definition output_of (data : option json_value) : M tiny_output :=
  match data with
  | Some v =>
      match json_output v with
      | Some o => ret o
      | None =>
          throw (Error "Cannot read properties of undefined (reading 'url')")
      end
  | None => throw (Error "Cannot read properties of null (reading 'output')")
  end.

Section WithDecoder.

(** [Buffer.from(s, "base64")] of the platform. *)
Variable Buffer_from_base64 : string -> list byte.

(** The body of the [try] block. *)
Definition compress_body (input : legacy_input) : M CompressionResult :=
  let base64Data := strip_data_url_prefix (imageBase64 input) in
  let imageBuffer := Buffer_from_base64 base64Data in
  let apiOptions := Router.apiOptions_of (as_input input) in
  let* response := fetch (shrink_request (as_input input) imageBuffer) in
  if negb (ok response) then
    let* errorData := json_of response in
    let* errorData_message := message_of errorData in
    throw (TRPCError BAD_REQUEST
             (or_default errorData_message "Failed to compress image"))
  else
  let* data := json_of response in
  let* data_output := output_of data in
  let data_output_url := out_url data_output in
  let finish (finalUrl : string) : M CompressionResult :=
    let* compressedImageResponse := fetch (download_request finalUrl false) in
    if negb (ok compressedImageResponse) then
      throw (TRPCError INTERNAL_SERVER_ERROR "Failed to fetch compressed image")
    else
    let compressedImageBuffer := body compressedImageResponse in
    let originalSize := byteLength imageBuffer in
    let compressedSize := out_size data_output in
    let savedBytes := originalSize - compressedSize in
    let compressionRatio := percent_of_difference originalSize compressedSize in
    ret (mkResult true originalSize compressedSize savedBytes compressionRatio
           (data_uri (legacy_mimeType input) compressedImageBuffer)
           (mime_string (legacy_mimeType input))
           (or_default (Some (out_type data_output))
              (mime_string (legacy_mimeType input)))) in
  match api_convert apiOptions with
  | Some _ =>
      let* convertResponse := fetch (convert_request data_output_url apiOptions) in
      if negb (ok convertResponse) then
        throw (TRPCError BAD_REQUEST "Failed to convert image format")
      else
      let contentType := content_type convertResponse in
      if is_json_content_type contentType then
        let* convertData := json_of convertResponse in
        let* finalUrl := output_url convertData in
        finish finalUrl
      else
        let imageBuffer := body convertResponse in
        ret (mkResult true
               (byteLength imageBuffer)
               (byteLength imageBuffer)
               0
               (JS.of_Z 0)
               (data_uri (legacy_outputFormat input) imageBuffer)
               (mime_string (legacy_mimeType input))
               (mime_string (legacy_outputFormat input)))
  | None => finish data_output_url
  end.

Definition compress (input : legacy_input) : M CompressionResult :=
  try_catch (compress_body input)
    (fun error =>
       match error with
       | TRPCError _ _ => throw error
       | Error message => throw (TRPCError INTERNAL_SERVER_ERROR message)
       end).

End WithDecoder.

End Legacy.

(** ** The uploading page: validation, upload progress and the reply *)

Module UploadFlow.

(** [SUPPORTED_MIME_TYPES.includes(file.type)]. *)
Definition supported (type : string) : bool :=
  existsb (String.eqb type)
    (map mime_string [image_png; image_jpeg; image_jpg; image_webp; image_avif]).

(** The two checks at the head of [handleFileSelect]. *)
Definition validate (file : File) : attempt unit :=
  if negb (supported (type (blob file))) then
    Fails "Unsupported file type. Please upload a PNG, JPEG, or WebP image."
  else if 10 * 1024 * 1024 <? size (blob file) then
    Fails "File size too large. Please upload an image smaller than 10MB."
  else Succeeds tt.

(** [onUploadProgress]: the value handed to [setProgress], if any;
    NaN is dropped. *)
Definition onUploadProgress (loaded total : Z) : option JS.number :=
  let uploadPercentage :=
    JS.mul (JS.div (JS.of_Z loaded) (JS.of_Z total)) (JS.of_Z 30) in
  match uploadPercentage with
  | JS.NaN => None
  | shown => Some shown
  end.

(** [response.ok]: a status from 200 to 299. *)
Definition response_ok (reply : Route.NextResponse) : bool :=
  (200 <=? Route.status reply) && (Route.status reply <=? 299).

(** The end of [handleFileSelect], [reply] being the answer of
    /api/compress: a failure status throws the [error] of the body, or
    "Failed to compress image" when it has none; a body without
    [compressedImage] throws "Invalid compression result received"; the
    [catch] block shows the message. *)
Definition handle_reply (reply : Route.NextResponse) (st : HomeUpload.state)
  : HomeUpload.state :=
  if negb (response_ok reply) then
    let error :=
      match Route.payload reply with
      | Route.ErrorBody error => Some error
      | Route.ResultBody _ => None
      end in
    HomeUpload.failed (or_default error "Failed to compress image") st
  else
    match Route.payload reply with
    | Route.ResultBody result =>
        if negb (truthy (compressedImage result)) then
          HomeUpload.failed "Invalid compression result received" st
        else HomeUpload.completed result st
    | Route.ErrorBody _ =>
        HomeUpload.failed "Invalid compression result received" st
    end.

End UploadFlow.

(** ** More sample data *)

(** [input] with other options. *)
Definition with_options (input : compression_input)
    (o : option compression_options) : compression_input :=
  mkInput (imageUrl input) (filename input) (mimeType input)
    (outputFormat input) o.

(** [input] asking for its own format. *)
Definition without_conversion (input : compression_input) : compression_input :=
  mkInput (imageUrl input) (filename input) (mimeType input)
    (mimeType input) (options input).

Module Fixtures.

Definition all_options : compression_options :=
  mkOptions (Some 80%Q) (Some true)
    (Some (mkResize (Some 100%Q) None (Some fit))) (Some true).

(** The source cannot be fetched. *)
Definition missing_source : world :=
  Samples.scripted [Responds (mkResponse false (Some "text/plain"%string) []
                                (Malformed "Unexpected token N in JSON"))].

(** The shrink call succeeds with a body that has no [output]. *)
Definition empty_descriptor : world :=
  Samples.scripted [Responds (Samples.image "image/webp" (repeat x00 10));
                    Responds (mkResponse true (Some "application/json"%string) []
                                (Parsed (mkJson None None)))].

(** The conversion call is refused. *)
Definition refused_conversion : world :=
  Samples.scripted [Responds (Samples.image "image/webp" (repeat x00 10));
                    Responds (Samples.descriptor Samples.shrunk_location);
                    Responds (Samples.rejection (Some "Unsupported"%string))].

(** The location of phase 1 cannot be downloaded. *)
Definition vanished_output : world :=
  Samples.scripted [Responds (Samples.image "image/jpeg" (repeat x00 10));
                    Responds (Samples.descriptor Samples.shrunk_location);
                    Responds (mkResponse false None [] (Malformed "Not found"))].

Definition webp_to_avif : compression_input :=
  mkInput "https://blob.example/a.webp" "a.webp" image_webp image_avif None.

(** A decoder for the samples: it reads base64 text as
    [toString_base64] writes it, skipping what is not a digit. *)
Fixpoint digit_value (c : ascii) (alphabet : string) (n : N) : option N :=
  match alphabet with
  | EmptyString => None
  | String d rest =>
      if Ascii.eqb c d then Some n else digit_value c rest (N.succ n)
  end.

Fixpoint digits_of (s : string) : list N :=
  match s with
  | EmptyString => []
  | String c rest =>
      match digit_value c base64_alphabet 0 with
      | Some n => n :: digits_of rest
      | None => digits_of rest
      end
  end.

Definition byte_of (n : N) : byte :=
  match Byte.of_N (n mod 256) with
  | Some b => b
  | None => x00
  end.

Fixpoint bytes_of_digits (l : list N) : list byte :=
  match l with
  | a :: b :: c :: d :: rest =>
      let n := (a * 262144 + b * 4096 + c * 64 + d)%N in
      byte_of (n / 65536) :: byte_of (n / 256) :: byte_of n
        :: bytes_of_digits rest
  | [a; b; c] =>
      let n := (a * 262144 + b * 4096 + c * 64)%N in
      [byte_of (n / 65536); byte_of (n / 256)]
  | [a; b] => [byte_of ((a * 262144 + b * 4096) / 65536)]
  | _ => []
  end.

Definition decode_base64 (s : string) : list byte :=
  bytes_of_digits (digits_of s).

(** A JPEG of the six bytes 0 to 5. *)
Definition legacy_jpeg : Legacy.legacy_input :=
  Legacy.mkLegacyInput "data:image/jpeg;base64,AAECAwQF" "a.jpg"
    image_jpeg image_jpeg None.

(** The shrink call and the download succeed. *)
Definition legacy_plain : world :=
  Samples.scripted
    [Responds (Samples.descriptor Samples.shrunk_location);
     Responds (Samples.image "image/jpeg" [x00; x01; x02; x03; x04])].

Definition legacy_to_png : Legacy.legacy_input :=
  Legacy.mkLegacyInput "data:image/jpeg;base64,AAECAwQF" "a.jpg"
    image_jpeg image_png None.

(** A conversion answered by a descriptor, whose download has nine
    bytes. *)
Definition legacy_conversion : world :=
  Samples.scripted [Responds (Samples.descriptor Samples.shrunk_location);
                    Responds (Samples.descriptor Samples.converted_location);
                    Responds (Samples.image "image/png" (repeat x01 9))].

(** A wide strip of 10000 x 2 pixels. *)
Definition strip_bitmap : ImageBitmap := mkBitmap 10000 2 7.

End Fixtures.

(** * Properties *)

(** ** Rounding *)

Lemma inject_Z_nonzero (d : Z) : d <> 0 -> ~ inject_Z d == 0.
Proof.
  intros Hd H. apply Hd. unfold Qeq in H. simpl in H. lia.
Qed.

(** [Math.round(n / d * m)] in integer arithmetic, for a positive
    divisor. *)
Lemma round_div_mul (n d m : Z) :
  0 < d ->
  JS.round_half_up (inject_Z n / inject_Z d * inject_Z m) =
  (2 * n * m + d) / (2 * d).
Proof.
  intros Hd. unfold JS.round_half_up.
  rewrite Zdiv_Qdiv. apply Qfloor_comp.
  rewrite !inject_Z_plus, !inject_Z_mult.
  field. apply inject_Z_nonzero. lia.
Qed.

Lemma Qeq_bool_inject_Z (a : Z) : Qeq_bool (inject_Z a) 0 = (a =? 0).
Proof.
  unfold Qeq_bool, inject_Z. simpl. rewrite Z.mul_1_r. reflexivity.
Qed.

(** The quotient of two integers is finite when the divisor is not zero. *)
Lemma div_of_Z (n d : Z) :
  d <> 0 -> JS.div (JS.of_Z n) (JS.of_Z d) = JS.Finite (inject_Z n / inject_Z d).
Proof.
  intros Hd. unfold JS.div, JS.of_Z.
  rewrite Qeq_bool_inject_Z.
  destruct (Z.eqb_spec d 0); [contradiction | reflexivity].
Qed.

(** The product is rounded before [Math.round] sees it: 23/40 times 100
    is just below 57.5 in doubles, so 40 bytes that become 17 give 57,
    where the exact quotient would give 58. *)
Lemma percent_of_difference_rounds_in_doubles :
  percent_of_difference 40 17 = JS.of_Z 57 /\
  percent_of_difference 1000000 425000 = JS.of_Z 57 /\
  percent_of_difference 10 3 = JS.of_Z 70 /\
  percent_of_difference 0 0 = JS.NaN /\
  percent_of_difference 0 3 = JS.NegInfinity.
Proof. repeat split; vm_compute; reflexivity. Qed.

Lemma byteLength_nonneg (b : list byte) : 0 <= byteLength b.
Proof. unfold byteLength. lia. Qed.

(** [sizeRatio < 0.8] says that the result has less than 80% of the
    bytes of the source. *)
Lemma suspicious_png_iff (f o : Z) :
  0 <= f -> 0 <= o ->
  Route.suspicious_png f o = true <-> 10 * f < 8 * o.
Proof.
  intros Hf Ho. unfold Route.suspicious_png.
  destruct (Z.eq_dec o 0) as [-> | Hne].
  - unfold JS.div, JS.of_Z. rewrite Qeq_bool_inject_Z. cbn [Z.eqb].
    unfold Qcompare, inject_Z. cbn [Qnum Qden]. rewrite Z.mul_1_r.
    change (0 * 1) with 0.
    destruct (Z.compare_spec f 0); cbn [JS.lt]; split; (discriminate || lia).
  - rewrite div_of_Z by assumption. cbn [JS.lt].
    rewrite negb_true_iff, <- not_true_iff_false, Qle_bool_iff.
    destruct o as [| p | p]; try lia.
    unfold Qle, Qdiv, Qinv, Qmult, inject_Z. cbn [Qnum Qden].
    rewrite Pos.mul_1_l. lia.
Qed.

(** ** Running the orchestrators *)

Lemma mime_eqb_eq (a b : mime) : mime_eqb a b = true <-> a = b.
Proof.
  destruct a, b; vm_compute; split; intros H; congruence.
Qed.

Lemma mime_eqb_refl (a : mime) : mime_eqb a a = true.
Proof. apply mime_eqb_eq. reflexivity. Qed.

Lemma mime_eqb_neq (a b : mime) : a <> b -> mime_eqb a b = false.
Proof.
  intros H. destruct (mime_eqb a b) eqn:E; [| reflexivity].
  apply mime_eqb_eq in E. contradiction.
Qed.

Lemma bind_fetch {A} (r : request) (k : response -> M A) (w : world) log :
  bind (fetch r) k w log =
  match w log r with
  | NetworkError msg => (Thrown (Error msg), log ++ [r])
  | Responds resp => k resp w (log ++ [r])
  end.
Proof. unfold bind, fetch. destruct (w log r); reflexivity. Qed.

Lemma bind_ret {A B} (a : A) (k : A -> M B) w log :
  bind (ret a) k w log = k a w log.
Proof. reflexivity. Qed.

Lemma bind_throw {A B} (e : exn) (k : A -> M B) w log :
  bind (throw e) k w log = (Thrown e, log).
Proof. reflexivity. Qed.

Lemma bind_json_of {A} (r : response) (k : option json_value -> M A) w log :
  bind (json_of r) k w log =
  match json r with
  | Malformed msg => (Thrown (Error msg), log)
  | ParsedNull => k None w log
  | Parsed v => k (Some v) w log
  end.
Proof. unfold bind, json_of. destruct (json r); reflexivity. Qed.

Lemma bind_message_of {A} (v : json_value) (k : option string -> M A) w log :
  bind (message_of (Some v)) k w log = k (json_message v) w log.
Proof. reflexivity. Qed.

Lemma bind_message_of_null {A} (k : option string -> M A) w log :
  bind (message_of None) k w log =
  (Thrown (Error "Cannot read properties of null (reading 'message')"), log).
Proof. reflexivity. Qed.

Lemma bind_output_url {A} (v : json_value) (k : string -> M A) w log :
  bind (output_url (Some v)) k w log =
  match json_output v with
  | Some o => k (out_url o) w log
  | None =>
      (Thrown (Error "Cannot read properties of undefined (reading 'url')"), log)
  end.
Proof. unfold bind, output_url. destruct (json_output v); reflexivity. Qed.

Lemma bind_output_url_null {A} (k : string -> M A) w log :
  bind (output_url None) k w log =
  (Thrown (Error "Cannot read properties of null (reading 'output')"), log).
Proof. reflexivity. Qed.

(** A data URI starts with "data:", so it is never the empty string. *)
Lemma data_uri_truthy (t : mime) (b : list byte) : truthy (data_uri t b) = true.
Proof. reflexivity. Qed.

Lemma router_convert_set (input : compression_input) :
  mimeType input <> outputFormat input ->
  api_convert (Router.apiOptions_of input) = Some (outputFormat input).
Proof.
  intros Hne. unfold Router.apiOptions_of. cbn [api_convert].
  rewrite mime_eqb_neq by congruence. reflexivity.
Qed.

Lemma router_convert_unset (input : compression_input) :
  outputFormat input = mimeType input ->
  api_convert (Router.apiOptions_of input) = None.
Proof.
  intros Hsame. unfold Router.apiOptions_of. cbn [api_convert].
  rewrite Hsame, mime_eqb_refl. reflexivity.
Qed.

(** One case split on what the world answered. *)
Ltac split_on_answer :=
  match goal with
  | |- context [match ?w ?log ?r with NetworkError _ => _ | Responds _ => _ end] =>
      destruct (w log r) eqn:?
  | |- context [if negb (ok ?r) then _ else _] => destruct (ok r) eqn:?
  | |- context [match json ?r with
                | Malformed _ => _ | ParsedNull => _ | Parsed _ => _
                end] =>
      destruct (json r) eqn:?
  | |- context [match json_output ?d with Some _ => _ | None => _ end] =>
      destruct (json_output d) eqn:?
  | |- context [if is_json_content_type ?c then _ else _] =>
      destruct (is_json_content_type c) eqn:?
  | |- context [match api_convert ?o with Some _ => _ | None => _ end] =>
      destruct (api_convert o) eqn:?
  | |- context [if negb (mime_eqb ?a ?b) then _ else _] =>
      destruct (mime_eqb a b) eqn:?
  | |- context [if mime_eqb ?a ?b && ?c then _ else _] =>
      destruct (mime_eqb a b && c) eqn:?
  end.

(** Runs an orchestrator symbolically, along every answer of the world. *)
Ltac run_orchestrator :=
  repeat (first [ rewrite bind_fetch | rewrite bind_json_of
                | rewrite bind_message_of | rewrite bind_message_of_null
                | rewrite bind_output_url | rewrite bind_output_url_null
                | rewrite bind_ret | rewrite bind_throw
                | rewrite data_uri_truthy
                | split_on_answer
                | progress cbn [negb app compressedImage] ]);
  unfold ret, throw; cbn [fst snd].

(** Runs an orchestrator along the answers that the hypotheses fix. *)
Ltac follow_answers :=
  repeat (first [ rewrite bind_fetch | rewrite bind_json_of
                | rewrite bind_message_of | rewrite bind_message_of_null
                | rewrite bind_output_url | rewrite bind_output_url_null
                | rewrite bind_ret | rewrite bind_throw
                | rewrite data_uri_truthy
                | match goal with
                  | H : ?w ?log ?r = _ |- context [?w ?log ?r] => rewrite H
                  | H : ok ?r = _ |- context [ok ?r] => rewrite H
                  | H : json ?r = _ |- context [json ?r] => rewrite H
                  | H : json_output ?d = _ |- context [json_output ?d] => rewrite H
                  | H : is_json_content_type ?c = _
                    |- context [is_json_content_type ?c] => rewrite H
                  | H : api_convert ?o = _ |- context [api_convert ?o] => rewrite H
                  | H : mime_eqb ?a ?b = _ |- context [mime_eqb ?a ?b] => rewrite H
                  end
                | progress cbn [negb app compressedImage] ]);
  unfold ret, throw; cbn [fst snd].

(** ** Size metrics *)

(** What holds of the metrics of every result of the tRPC procedure. *)
Lemma router_result_metrics (w : world) (input : compression_input)
    (r : CompressionResult) :
  fst (Router.compress input w []) = Returned r ->
  0 <= originalSize r /\ 0 <= compressedSize r /\
  savedBytes r = Z.max 0 (originalSize r - compressedSize r) /\
  (compressionRatio r = percent_of_difference (originalSize r) (compressedSize r)
   \/ compressionRatio r = JS.of_Z 0).
Proof.
  unfold Router.compress, try_catch, Router.compress_body.
  run_orchestrator; intros H; try discriminate; injection H as <-;
    cbn [originalSize compressedSize savedBytes compressionRatio];
    repeat split; auto using byteLength_nonneg; lia.
Qed.

(** What holds of the metrics of every result of the REST handler. *)
Lemma route_result_metrics (w : world) (input : compression_input)
    (r : CompressionResult) (status : Z) :
  fst (Route.POST input w []) = Returned (Route.mkNext status (Route.ResultBody r)) ->
  0 <= originalSize r /\ 0 <= compressedSize r /\
  savedBytes r = Z.max 0 (originalSize r - compressedSize r) /\
  compressionRatio r = percent_of_difference (originalSize r) (compressedSize r).
Proof.
  unfold Route.POST, try_catch, Route.POST_body.
  run_orchestrator; intros H; try discriminate; injection H as <- <-;
    cbn [originalSize compressedSize savedBytes compressionRatio
         Route.success_result];
    repeat split; auto using byteLength_nonneg.
Qed.

(** C1. The result objects clamp [savedBytes] at zero but compute
    [compressionRatio] from the difference that is not clamped: for a
    JPEG of two bytes that comes back as a PNG of three bytes, both
    orchestrators report 0 saved bytes together with a ratio of -50,
    which is neither [round(savedBytes / originalSize * 100)] nor within
    [0,100]. *)
Theorem ratio_is_negative_when_output_is_larger :
  (exists r,
     fst (Router.compress Samples.jpeg_to_png Samples.enlarging []) = Returned r /\
     originalSize r = 2 /\ compressedSize r = 3 /\
     savedBytes r = 0 /\ compressionRatio r = JS.of_Z (-50)) /\
  (exists r,
     fst (Route.POST Samples.jpeg_to_png Samples.enlarging []) =
       Returned (Route.mkNext 200 (Route.ResultBody r)) /\
     originalSize r = 2 /\ compressedSize r = 3 /\
     savedBytes r = 0 /\ compressionRatio r = JS.of_Z (-50)).
Proof.
  split; eexists; (split; [vm_compute; reflexivity |]); repeat split.
Qed.

(** ** The conversion phase *)

(** The result of the tRPC procedure when the conversion answers with
    something that is not JSON. *)
Lemma router_binary_result
    (w : world) (input : compression_input)
    (source shrunk converted : response) (out : tiny_output) :
  mimeType input <> outputFormat input ->
  phase1_succeeds w input source shrunk out ->
  conversion_answered w input source out (Router.apiOptions_of input) converted ->
  is_json_content_type (content_type converted) = false ->
  Router.compress input w [] =
    (Returned
       (mkResult true (byteLength (body converted)) (byteLength (body converted))
          0 (JS.of_Z 0) (data_uri (outputFormat input) (body converted))
          (mime_string (mimeType input)) (mime_string (outputFormat input))),
     [source_request input; shrink_request input (body source);
      convert_request (out_url out) (Router.apiOptions_of input)]).
Proof.
  intros Hne (Hsrc & Hok1 & Hshr & Hok2 & data & Hjson & Hout) (Hconv & Hok3) Hct.
  pose proof (router_convert_set input Hne) as Hc.
  unfold Router.compress, try_catch, Router.compress_body.
  follow_answers. reflexivity.
Qed.

(** C2 fails for the tRPC procedure, which has no size check: a PNG
    conversion whose result has 3 bytes for a source of 10 is returned as
    a success. *)
Lemma router_returns_shrunken_png :
  exists r,
    fst (Router.compress Samples.webp_to_png Samples.shrinking_json []) = Returned r /\
    outputType r = "image/png"%string /\
    originalSize r = 10 /\ compressedSize r = 3 /\
    10 * compressedSize r < 8 * originalSize r.
Proof.
  eexists. split; [vm_compute; reflexivity |]. repeat split.
Qed.

(** C2, for the REST handler: when a conversion to image/png was
    requested and its result, delivered in the conversion response or
    fetched from the location it names, has fewer bytes than 80% of the
    source, POST replies with status 400 and the error "PNG conversion
    resulted in unexpected quality loss" instead of a result. *)
Theorem route_rejects_shrunken_png
    (w : world) (input : compression_input)
    (source shrunk converted : response) (out : tiny_output)
    (final : list byte) :
  outputFormat input = image_png ->
  mimeType input <> image_png ->
  phase1_succeeds w input source shrunk out ->
  conversion_answered w input source out (Route.apiOptions_of input) converted ->
  converted_bytes w input source out (Route.apiOptions_of input) converted final ->
  10 * byteLength final < 8 * byteLength (body source) ->
  fst (Route.POST input w []) =
    Returned (Route.error_response
                "PNG conversion resulted in unexpected quality loss" 400).
Proof.
  intros Hpng Hne (Hsrc & Hok1 & Hshr & Hok2 & data & Hjson & Hout)
    (Hconv & Hok3) Hfinal Hsmall.
  assert (Heq : mime_eqb (outputFormat input) (mimeType input) = false).
  { apply mime_eqb_neq. congruence. }
  assert (Hcheck : mime_eqb (outputFormat input) image_png = true).
  { apply mime_eqb_eq. assumption. }
  apply suspicious_png_iff in Hsmall; auto using byteLength_nonneg.
  unfold Route.POST, try_catch, Route.POST_body.
  destruct Hfinal as [(Hct & ->) | (Hct & data' & out' & dl & Hj & Ho & Hdl & Hok4 & ->)];
    follow_answers; reflexivity.
Qed.

(** C3. In the tRPC procedure, when the conversion response is a success
    whose declared content type is not JSON (the header is absent or does
    not contain "application/json"), the procedure returns at once, after
    three requests, a result with [savedBytes = 0] and
    [compressionRatio = 0], whatever the sizes of the source and of the
    converted image. *)
Theorem binary_conversion_reports_no_savings
    (w : world) (input : compression_input)
    (source shrunk converted : response) (out : tiny_output) :
  mimeType input <> outputFormat input ->
  phase1_succeeds w input source shrunk out ->
  conversion_answered w input source out (Router.apiOptions_of input) converted ->
  is_json_content_type (content_type converted) = false ->
  exists r,
    Router.compress input w [] =
      (Returned r,
       [source_request input; shrink_request input (body source);
        convert_request (out_url out) (Router.apiOptions_of input)]) /\
    savedBytes r = 0 /\ compressionRatio r = JS.of_Z 0.
Proof.
  intros Hne H1 H2 Hct.
  rewrite (router_binary_result w input source shrunk converted out Hne H1 H2 Hct).
  eexists. split; [reflexivity |]. split; reflexivity.
Qed.

(** C10. In the same path, [originalSize] and [compressedSize] are both
    the byte length of the converted payload; whenever that length
    differs from the length of the source image, [originalSize] is not
    the size of the request's image. *)
Theorem binary_conversion_reports_converted_size_twice
    (w : world) (input : compression_input)
    (source shrunk converted : response) (out : tiny_output) :
  mimeType input <> outputFormat input ->
  phase1_succeeds w input source shrunk out ->
  conversion_answered w input source out (Router.apiOptions_of input) converted ->
  is_json_content_type (content_type converted) = false ->
  exists r,
    fst (Router.compress input w []) = Returned r /\
    originalSize r = byteLength (body converted) /\
    compressedSize r = byteLength (body converted) /\
    (byteLength (body converted) <> byteLength (body source) ->
     originalSize r <> byteLength (body source)).
Proof.
  intros Hne H1 H2 Hct.
  rewrite (router_binary_result w input source shrunk converted out Hne H1 H2 Hct).
  eexists. split; [reflexivity |]. cbn [originalSize compressedSize].
  repeat split. intros Hdiff. exact Hdiff.
Qed.

(** A WebP of ten bytes whose PNG, fetched from the location that the
    conversion names, has three bytes. *)
Lemma route_rejects_shrunken_png_witness :
  fst (Route.POST Samples.webp_to_png Samples.shrinking_json []) =
    Returned (Route.error_response
                "PNG conversion resulted in unexpected quality loss" 400).
Proof.
  apply (route_rejects_shrunken_png Samples.shrinking_json Samples.webp_to_png
           (Samples.image "image/webp" (repeat x00 10))
           (Samples.descriptor Samples.shrunk_location)
           (Samples.descriptor Samples.converted_location)
           Samples.shrunk_location [x02; x03; x04]).
  - reflexivity.
  - discriminate.
  - unfold phase1_succeeds. repeat split. eexists. split; reflexivity.
  - split; reflexivity.
  - right. split; [reflexivity |]. do 3 eexists. repeat split.
  - vm_compute. reflexivity.
Defined.

(** A WebP of ten bytes whose conversion answers with a PNG of three
    bytes. *)
Lemma binary_conversion_reports_no_savings_witness :
  exists r,
    Router.compress Samples.webp_to_png Samples.shrinking_binary [] =
      (Returned r,
       [source_request Samples.webp_to_png;
        shrink_request Samples.webp_to_png (repeat x00 10);
        convert_request (out_url Samples.shrunk_location)
          (Router.apiOptions_of Samples.webp_to_png)]) /\
    savedBytes r = 0 /\ compressionRatio r = JS.of_Z 0.
Proof.
  apply (binary_conversion_reports_no_savings Samples.shrinking_binary
           Samples.webp_to_png
           (Samples.image "image/webp" (repeat x00 10))
           (Samples.descriptor Samples.shrunk_location)
           (Samples.image "image/png" [x02; x03; x04])
           Samples.shrunk_location).
  - discriminate.
  - unfold phase1_succeeds. repeat split. eexists. split; reflexivity.
  - split; reflexivity.
  - reflexivity.
Defined.

(** The same conversion: the result says 3 bytes for a source of 10. *)
Lemma binary_conversion_reports_converted_size_twice_witness :
  exists r,
    fst (Router.compress Samples.webp_to_png Samples.shrinking_binary []) =
      Returned r /\
    originalSize r = 3 /\
    compressedSize r = 3 /\
    (3 <> 10 -> originalSize r <> 10).
Proof.
  apply (binary_conversion_reports_converted_size_twice Samples.shrinking_binary
           Samples.webp_to_png
           (Samples.image "image/webp" (repeat x00 10))
           (Samples.descriptor Samples.shrunk_location)
           (Samples.image "image/png" [x02; x03; x04])
           Samples.shrunk_location).
  - discriminate.
  - unfold phase1_succeeds. repeat split. eexists. split; reflexivity.
  - split; reflexivity.
  - reflexivity.
Defined.

(** ** No conversion requested *)

Lemma same_format_router (w : world) (input : compression_input) :
  outputFormat input = mimeType input ->
  existsb is_conversion_call (snd (Router.compress input w [])) = false /\
  forall r, fst (Router.compress input w []) = Returned r ->
    outputType r = originalType r /\
    exists source shrunk out,
      phase1_succeeds w input source shrunk out /\
      snd (Router.compress input w []) =
        [source_request input; shrink_request input (body source);
         download_request (out_url out) false].
Proof.
  intros Hsame.
  pose proof (router_convert_unset input Hsame) as Hc.
  unfold Router.compress, try_catch, Router.compress_body. rewrite Hc.
  run_orchestrator.
  all: split; [reflexivity | intros res Hres; try discriminate].
  injection Hres as <-. cbn [outputType originalType]. split.
  - rewrite Hsame. reflexivity.
  - do 3 eexists. split; [| reflexivity].
    repeat split; try eassumption. eauto.
Qed.

Lemma same_format_route (w : world) (input : compression_input) :
  outputFormat input = mimeType input ->
  existsb is_conversion_call (snd (Route.POST input w [])) = false /\
  forall status r,
    fst (Route.POST input w []) =
      Returned (Route.mkNext status (Route.ResultBody r)) ->
    outputType r = originalType r /\
    exists source shrunk out,
      phase1_succeeds w input source shrunk out /\
      snd (Route.POST input w []) =
        [source_request input; shrink_request input (body source);
         download_request (out_url out) true].
Proof.
  intros Hsame.
  assert (Heq : mime_eqb (outputFormat input) (mimeType input) = true).
  { apply mime_eqb_eq. assumption. }
  unfold Route.POST, try_catch, Route.POST_body. rewrite Heq.
  run_orchestrator.
  all: split; [reflexivity | intros st res Hres; try discriminate].
  injection Hres as <- <-. cbn [outputType originalType Route.success_result].
  split.
  - reflexivity.
  - do 3 eexists. split; [| reflexivity].
    repeat split; try eassumption. eauto.
Qed.

(** The tRPC procedure without conversion, when every request succeeds. *)
Lemma same_format_router_succeeds
    (w : world) (input : compression_input)
    (source shrunk downloaded : response) (out : tiny_output) :
  outputFormat input = mimeType input ->
  phase1_succeeds w input source shrunk out ->
  w [source_request input; shrink_request input (body source)]
    (download_request (out_url out) false) = Responds downloaded ->
  ok downloaded = true ->
  Router.compress input w [] =
    (Returned
       (mkResult true
          (byteLength (body source)) (byteLength (body downloaded))
          (Z.max 0 (byteLength (body source) - byteLength (body downloaded)))
          (percent_of_difference (byteLength (body source))
             (byteLength (body downloaded)))
          (data_uri (outputFormat input) (body downloaded))
          (mime_string (mimeType input)) (mime_string (outputFormat input))),
     [source_request input; shrink_request input (body source);
      download_request (out_url out) false]).
Proof.
  intros Hsame (Hsrc & Hok1 & Hshr & Hok2 & data & Hjson & Hout) Hdl Hok3.
  pose proof (router_convert_unset input Hsame) as Hc.
  unfold Router.compress, try_catch, Router.compress_body.
  follow_answers. reflexivity.
Qed.

(** The REST handler without conversion, when every request succeeds. *)
Lemma same_format_route_succeeds
    (w : world) (input : compression_input)
    (source shrunk downloaded : response) (out : tiny_output) :
  outputFormat input = mimeType input ->
  phase1_succeeds w input source shrunk out ->
  w [source_request input; shrink_request input (body source)]
    (download_request (out_url out) true) = Responds downloaded ->
  ok downloaded = true ->
  Route.POST input w [] =
    (Returned
       (Route.mkNext 200
          (Route.ResultBody
             (Route.success_result (body source) (body downloaded)
                (mimeType input) (mimeType input) (mimeType input)))),
     [source_request input; shrink_request input (body source);
      download_request (out_url out) true]).
Proof.
  intros Hsame (Hsrc & Hok1 & Hshr & Hok2 & data & Hjson & Hout) Hdl Hok3.
  assert (Heq : mime_eqb (outputFormat input) (mimeType input) = true).
  { apply mime_eqb_eq. assumption. }
  unfold Route.POST, try_catch, Route.POST_body.
  follow_answers. reflexivity.
Qed.

(** C7. When [outputFormat] equals [mimeType], neither orchestrator
    makes a conversion call, whatever the world answers; every result
    returned has [outputType] equal to [originalType], and was obtained
    with exactly three requests, the last of which fetches the location
    that phase 1 returned.  And a result is returned: when phase 1
    succeeds and the location it names can be downloaded, each
    orchestrator returns, after the source fetch, the shrink call and the
    download of that location, a result made of the downloaded bytes,
    with [outputType] equal to [originalType]. *)
Theorem same_format_skips_conversion (w : world) (input : compression_input) :
  outputFormat input = mimeType input ->
  (existsb is_conversion_call (snd (Router.compress input w [])) = false /\
   forall r, fst (Router.compress input w []) = Returned r ->
     outputType r = originalType r /\
     exists source shrunk out,
       phase1_succeeds w input source shrunk out /\
       snd (Router.compress input w []) =
         [source_request input; shrink_request input (body source);
          download_request (out_url out) false]) /\
  (existsb is_conversion_call (snd (Route.POST input w [])) = false /\
   forall status r,
     fst (Route.POST input w []) =
       Returned (Route.mkNext status (Route.ResultBody r)) ->
     outputType r = originalType r /\
     exists source shrunk out,
       phase1_succeeds w input source shrunk out /\
       snd (Route.POST input w []) =
         [source_request input; shrink_request input (body source);
          download_request (out_url out) true]) /\
  (forall source shrunk out downloaded,
     phase1_succeeds w input source shrunk out ->
     w [source_request input; shrink_request input (body source)]
       (download_request (out_url out) false) = Responds downloaded ->
     ok downloaded = true ->
     exists r,
       Router.compress input w [] =
         (Returned r,
          [source_request input; shrink_request input (body source);
           download_request (out_url out) false]) /\
       outputType r = originalType r /\
       originalType r = mime_string (mimeType input) /\
       originalSize r = byteLength (body source) /\
       compressedSize r = byteLength (body downloaded) /\
       compressedImage r = data_uri (mimeType input) (body downloaded)) /\
  (forall source shrunk out downloaded,
     phase1_succeeds w input source shrunk out ->
     w [source_request input; shrink_request input (body source)]
       (download_request (out_url out) true) = Responds downloaded ->
     ok downloaded = true ->
     exists r,
       Route.POST input w [] =
         (Returned (Route.mkNext 200 (Route.ResultBody r)),
          [source_request input; shrink_request input (body source);
           download_request (out_url out) true]) /\
       outputType r = originalType r /\
       originalType r = mime_string (mimeType input) /\
       originalSize r = byteLength (body source) /\
       compressedSize r = byteLength (body downloaded) /\
       compressedImage r = data_uri (mimeType input) (body downloaded)).
Proof.
  intros Hsame. split; [| split; [| split]].
  - apply same_format_router. assumption.
  - apply same_format_route. assumption.
  - intros source shrunk out downloaded Hphase Hdl Hok.
    rewrite (same_format_router_succeeds w input source shrunk downloaded out
               Hsame Hphase Hdl Hok).
    eexists. split; [reflexivity |].
    cbn [outputType originalType originalSize compressedSize compressedImage].
    rewrite Hsame. repeat split.
  - intros source shrunk out downloaded Hphase Hdl Hok.
    rewrite (same_format_route_succeeds w input source shrunk downloaded out
               Hsame Hphase Hdl Hok).
    eexists. split; [reflexivity |].
    cbn [outputType originalType originalSize compressedSize compressedImage
         Route.success_result].
    repeat split.
Qed.

(** A JPEG that stays a JPEG: both orchestrators return a result after
    three requests, none of which is a conversion call. *)
Lemma same_format_skips_conversion_witness :
  (exists r,
     Router.compress Samples.jpeg_to_jpeg Samples.growing [] =
       (Returned r,
        [source_request Samples.jpeg_to_jpeg;
         shrink_request Samples.jpeg_to_jpeg [x00; x01];
         download_request (out_url Samples.shrunk_location) false]) /\
     outputType r = originalType r /\
     compressedSize r = 3) /\
  (exists r,
     Route.POST Samples.jpeg_to_jpeg Samples.growing [] =
       (Returned (Route.mkNext 200 (Route.ResultBody r)),
        [source_request Samples.jpeg_to_jpeg;
         shrink_request Samples.jpeg_to_jpeg [x00; x01];
         download_request (out_url Samples.shrunk_location) true]) /\
     outputType r = originalType r /\
     compressedSize r = 3) /\
  existsb is_conversion_call
    (snd (Router.compress Samples.jpeg_to_jpeg Samples.growing [])) = false /\
  existsb is_conversion_call
    (snd (Route.POST Samples.jpeg_to_jpeg Samples.growing [])) = false.
Proof.
  destruct (same_format_skips_conversion Samples.growing Samples.jpeg_to_jpeg)
    as ([H1 _] & [H2 _] & Hrouter & Hroute).
  - reflexivity.
  - assert (Hphase :
              phase1_succeeds Samples.growing Samples.jpeg_to_jpeg
                (Samples.image "image/jpeg" [x00; x01])
                (Samples.descriptor Samples.shrunk_location)
                Samples.shrunk_location).
    { unfold phase1_succeeds. repeat split. eexists. split; reflexivity. }
    split; [| split; [| split; assumption]].
    + destruct (Hrouter _ _ _ (Samples.image "image/jpeg" [x00; x01; x02])
                  Hphase eq_refl eq_refl)
        as (r & Hrun & Htype & _ & _ & Hsize & _).
      exists r. repeat split; assumption.
    + destruct (Hroute _ _ _ (Samples.image "image/jpeg" [x00; x01; x02])
                  Hphase eq_refl eq_refl)
        as (r & Hrun & Htype & _ & _ & Hsize & _).
      exists r. repeat split; assumption.
Defined.

(** ** A refused shrink call *)

(** C9 fails when the error body of the shrink call is not JSON: the
    tRPC procedure then throws an INTERNAL_SERVER_ERROR with the
    parser's message, and the REST handler replies with status 500. *)
Lemma unparsable_rejection_is_internal_error :
  fst (Router.compress Samples.webp_to_png
         (Samples.refusing Samples.gateway_error) []) =
    Thrown (TRPCError INTERNAL_SERVER_ERROR
              "Unexpected token < in JSON at position 0") /\
  fst (Route.POST Samples.webp_to_png
         (Samples.refusing Samples.gateway_error) []) =
    Returned (Route.error_response
                "Unexpected token < in JSON at position 0" 500).
Proof.
  split; vm_compute; reflexivity.
Qed.

(** C9, as the code has it: after a shrink call that is answered with a
    failure status, no further request is made.  When the body of the
    answer parses as JSON and is not null, the tRPC procedure throws a
    BAD_REQUEST and the REST handler replies with status 400, the message
    being the one of the body if it has one that is not empty, and
    "Failed to compress image" otherwise.  When the body does not parse,
    the parser's message is reported as INTERNAL_SERVER_ERROR,
    respectively with status 500; so is the TypeError of reading
    [message] when the body is the JSON text null. *)
Theorem rejected_shrink_is_terminal
    (w : world) (input : compression_input) (source shrunk : response) :
  w [] (source_request input) = Responds source ->
  ok source = true ->
  w [source_request input] (shrink_request input (body source)) = Responds shrunk ->
  ok shrunk = false ->
  let trace := [source_request input; shrink_request input (body source)] in
  (forall data, json shrunk = Parsed data ->
     let message := or_default (json_message data) "Failed to compress image" in
     Router.compress input w [] = (Thrown (TRPCError BAD_REQUEST message), trace) /\
     Route.POST input w [] = (Returned (Route.error_response message 400), trace) /\
     (forall m, json_message data = Some m -> m <> EmptyString -> message = m) /\
     (json_message data = None \/ json_message data = Some EmptyString ->
      message = "Failed to compress image"%string)) /\
  (forall msg, json shrunk = Malformed msg ->
     Router.compress input w [] =
       (Thrown (TRPCError INTERNAL_SERVER_ERROR msg), trace) /\
     Route.POST input w [] = (Returned (Route.error_response msg 500), trace)) /\
  (json shrunk = ParsedNull ->
     Router.compress input w [] =
       (Thrown (TRPCError INTERNAL_SERVER_ERROR
                  "Cannot read properties of null (reading 'message')"),
        trace) /\
     Route.POST input w [] =
       (Returned (Route.error_response
                    "Cannot read properties of null (reading 'message')" 500),
        trace)).
Proof.
  intros Hsrc Hok1 Hshr Hok2 trace. split; [| split].
  - intros data Hjson message. repeat split.
    + unfold Router.compress, try_catch, Router.compress_body.
      follow_answers. reflexivity.
    + unfold Route.POST, try_catch, Route.POST_body.
      follow_answers. reflexivity.
    + intros m Hm Hne. unfold message. rewrite Hm.
      destruct m; [contradiction | reflexivity].
    + intros [Hm | Hm]; unfold message; rewrite Hm; reflexivity.
  - intros msg Hjson. split.
    + unfold Router.compress, try_catch, Router.compress_body.
      follow_answers. reflexivity.
    + unfold Route.POST, try_catch, Route.POST_body.
      follow_answers. reflexivity.
  - intros Hjson. split.
    + unfold Router.compress, try_catch, Router.compress_body.
      follow_answers. reflexivity.
    + unfold Route.POST, try_catch, Route.POST_body.
      follow_answers. reflexivity.
Qed.

(** A shrink call refused with a message. *)
Lemma rejected_shrink_is_terminal_witness :
  Router.compress Samples.webp_to_png
    (Samples.refusing (Samples.rejection (Some "Unsupported media type"%string))) [] =
    (Thrown (TRPCError BAD_REQUEST "Unsupported media type"),
     [source_request Samples.webp_to_png;
      shrink_request Samples.webp_to_png (repeat x00 10)]).
Proof.
  destruct (rejected_shrink_is_terminal
              (Samples.refusing (Samples.rejection (Some "Unsupported media type"%string)))
              Samples.webp_to_png
              (Samples.image "image/webp" (repeat x00 10))
              (Samples.rejection (Some "Unsupported media type"%string)))
    as [Hparsed _].
  - reflexivity.
  - reflexivity.
  - reflexivity.
  - reflexivity.
  - destruct (Hparsed (mkJson (Some "Unsupported media type"%string) None) eq_refl)
      as [Hrouter _].
    exact Hrouter.
Defined.

(** ** The preprocessors *)

Lemma lt_of_Z (a b : Z) : JS.lt (JS.of_Z a) (JS.of_Z b) = (a <? b).
Proof.
  unfold JS.lt, JS.of_Z, Qle_bool, inject_Z. cbn [Qnum Qden].
  rewrite !Z.mul_1_r. symmetry. apply Z.ltb_antisym.
Qed.

Lemma round_quotient_of_Z (n d m : Z) :
  0 < d ->
  JS.Math_round (JS.mul (JS.div (JS.of_Z n) (JS.of_Z d)) (JS.of_Z m)) =
  JS.of_Z (JS.round_half_up (inject_Z n / inject_Z d * inject_Z m)).
Proof.
  intros Hd. rewrite div_of_Z by lia. reflexivity.
Qed.

(** The three cases of [new_dimensions]. *)
Lemma new_dimensions_unchanged (img : ImageBitmap) :
  width img <= maxDim -> height img <= maxDim ->
  new_dimensions img = (JS.of_Z (width img), JS.of_Z (height img)).
Proof.
  intros Hw Hh. unfold new_dimensions. rewrite !lt_of_Z.
  destruct (Z.ltb_spec maxDim (width img)); [lia |].
  destruct (Z.ltb_spec maxDim (height img)); [lia |]. reflexivity.
Qed.

Lemma new_dimensions_landscape (img : ImageBitmap) :
  maxDim < width img \/ maxDim < height img ->
  height img < width img ->
  new_dimensions img =
    (JS.of_Z maxDim,
     JS.of_Z (JS.round_half_up
                (inject_Z (height img) / inject_Z (width img) * inject_Z maxDim))).
Proof.
  intros Hbig Hlt. unfold new_dimensions. rewrite !lt_of_Z.
  assert (Hor : (maxDim <? width img) || (maxDim <? height img) = true).
  { apply orb_true_iff. destruct Hbig; [left | right]; apply Z.ltb_lt; assumption. }
  rewrite Hor. destruct (Z.ltb_spec (height img) (width img)); [| lia].
  rewrite round_quotient_of_Z; [reflexivity |]. unfold maxDim in *. lia.
Qed.

Lemma new_dimensions_portrait (img : ImageBitmap) :
  maxDim < width img \/ maxDim < height img ->
  width img <= height img ->
  new_dimensions img =
    (JS.of_Z (JS.round_half_up
                (inject_Z (width img) / inject_Z (height img) * inject_Z maxDim)),
     JS.of_Z maxDim).
Proof.
  intros Hbig Hle. unfold new_dimensions. rewrite !lt_of_Z.
  assert (Hor : (maxDim <? width img) || (maxDim <? height img) = true).
  { apply orb_true_iff. destruct Hbig; [left | right]; apply Z.ltb_lt; assumption. }
  rewrite Hor. destruct (Z.ltb_spec (height img) (width img)); [lia |].
  rewrite round_quotient_of_Z; [reflexivity |]. unfold maxDim in *. lia.
Qed.

(** The shorter side after scaling: at most [maxDim], and within half a
    pixel of the exact quotient. *)
Lemma scaled_side_bounds (shorter longer : Z) :
  0 < longer -> shorter <= longer ->
  let scaled :=
    JS.round_half_up (inject_Z shorter / inject_Z longer * inject_Z maxDim) in
  scaled <= maxDim /\
  Z.abs (2 * (longer * scaled - maxDim * shorter)) <= longer.
Proof.
  intros Hpos Hle scaled. unfold scaled. rewrite round_div_mul by assumption.
  set (n := 2 * shorter * maxDim + longer).
  pose proof (Z.mul_div_le n (2 * longer) ltac:(lia)) as Hlow.
  pose proof (Z.mul_succ_div_gt n (2 * longer) ltac:(lia)) as Hhigh.
  unfold n, maxDim in *. split.
  - apply Z.lt_succ_r. apply Z.div_lt_upper_bound; lia.
  - lia.
Qed.

(** C4. An asset of at most 5 MiB is returned as it is by both
    preprocessors, whatever the browser would do with it: the same
    bytes, the same type, nothing decoded or encoded. *)
Theorem small_assets_pass_through (env : browser) (b : Blob) (file : File) :
  size b <= 5 * 1024 * 1024 ->
  size (blob file) <= 5 * 1024 * 1024 ->
  Worker.preprocessImage env b = Succeeds b /\
  Worker.onmessage env b = Worker.PostBlob b /\
  Home.preprocessImage env file = Succeeds file.
Proof.
  intros Hb Hf.
  unfold Worker.onmessage, Worker.preprocessImage, Home.preprocessImage.
  change five_MiB with (5 * 1024 * 1024).
  destruct (Z.leb_spec (size b) (5 * 1024 * 1024)); [| lia].
  destruct (Z.leb_spec (size (blob file)) (5 * 1024 * 1024)); [| lia].
  repeat split.
Qed.

(** A photograph of 3 MiB in a browser that cannot decode. *)
Lemma small_assets_pass_through_witness :
  Worker.preprocessImage Samples.undecoding (blob Samples.small_photo) =
    Succeeds (blob Samples.small_photo) /\
  Worker.onmessage Samples.undecoding (blob Samples.small_photo) =
    Worker.PostBlob (blob Samples.small_photo) /\
  Home.preprocessImage Samples.undecoding Samples.small_photo =
    Succeeds Samples.small_photo.
Proof.
  apply (small_assets_pass_through Samples.undecoding
           (blob Samples.small_photo) Samples.small_photo).
  - vm_compute. discriminate.
  - vm_compute. discriminate.
Defined.

(** What the worker does with a decoded oversized blob. *)
Lemma worker_renders_at_new_dimensions
    (env : browser) (b : Blob) (img : ImageBitmap) (w h : JS.number) :
  five_MiB < size b ->
  createImageBitmap env b = Succeeds img ->
  new_dimensions img = (w, h) ->
  Worker.preprocessImage env b =
    if getContext_2d env w h
    then convertToBlob env img w h (type b) (8 # 10)
    else Fails "Failed to get canvas context".
Proof.
  intros Hbig Hdec Hdim. unfold Worker.preprocessImage.
  destruct (Z.leb_spec (size b) five_MiB); [lia |].
  rewrite Hdec, Hdim. destruct (getContext_2d env w h); reflexivity.
Qed.

(** What the page does with a decoded oversized file that the canvas
    encodes. *)
Lemma home_renders_at_new_dimensions
    (env : browser) (file : File) (img : ImageBitmap) (w h : JS.number)
    (encoded : Blob) :
  five_MiB < size (blob file) ->
  createImageBitmap env (blob file) = Succeeds img ->
  new_dimensions img = (w, h) ->
  getContext_2d env w h = true ->
  toBlob env img w h (type (blob file)) (8 # 10) = Succeeds (Some encoded) ->
  Home.preprocessImage env file =
    Succeeds (new_File encoded (name file) (type (blob file))).
Proof.
  intros Hbig Hdec Hdim Hctx Henc. unfold Home.preprocessImage.
  destruct (Z.leb_spec (size (blob file)) five_MiB); [lia |].
  rewrite Hdec, Hdim, Hctx. cbn [negb]. rewrite Henc. reflexivity.
Qed.

(** C5. For an asset of more than 5 MiB that decodes to a bitmap, both
    preprocessors render at dimensions [w'] x [h'] such that: when a
    dimension of the bitmap exceeds 2048, the longer side becomes 2048
    and the shorter one [round(shorter / longer * 2048)], so that
    [max(w', h') = 2048] and the shorter side is within half a pixel of
    the exact quotient; when both dimensions are at most 2048 they are
    kept. *)
Theorem oversized_images_are_scaled
    (env : browser) (file : File) (img : ImageBitmap) :
  5 * 1024 * 1024 < size (blob file) ->
  createImageBitmap env (blob file) = Succeeds img ->
  exists w' h' : Z,
    Worker.preprocessImage env (blob file) =
      (if getContext_2d env (JS.of_Z w') (JS.of_Z h')
       then convertToBlob env img (JS.of_Z w') (JS.of_Z h')
              (type (blob file)) (8 # 10)
       else Fails "Failed to get canvas context") /\
    (forall encoded,
       getContext_2d env (JS.of_Z w') (JS.of_Z h') = true ->
       toBlob env img (JS.of_Z w') (JS.of_Z h') (type (blob file)) (8 # 10) =
         Succeeds (Some encoded) ->
       Home.preprocessImage env file =
         Succeeds (new_File encoded (name file) (type (blob file)))) /\
    (2048 < width img \/ 2048 < height img ->
       Z.max w' h' = 2048 /\
       (height img < width img ->
          w' = 2048 /\
          h' = JS.round_half_up
                 (inject_Z (height img) / inject_Z (width img) * 2048) /\
          Z.abs (2 * (width img * h' - 2048 * height img)) <= width img) /\
       (width img <= height img ->
          h' = 2048 /\
          w' = JS.round_half_up
                 (inject_Z (width img) / inject_Z (height img) * 2048) /\
          Z.abs (2 * (height img * w' - 2048 * width img)) <= height img)) /\
    (width img <= 2048 -> height img <= 2048 ->
       w' = width img /\ h' = height img).
Proof.
  intros Hbig Hdec.
  change (5 * 1024 * 1024) with five_MiB in Hbig.
  change 2048 with maxDim. change 2048%Q with (inject_Z maxDim).
  assert (Hcases :
            (width img <= maxDim /\ height img <= maxDim) \/
            ((maxDim < width img \/ maxDim < height img) /\
             height img < width img) \/
            ((maxDim < width img \/ maxDim < height img) /\
             width img <= height img)) by lia.
  destruct Hcases as [[Hw Hh] | [[Hover Hlt] | [Hover Hle]]].
  - exists (width img), (height img).
    pose proof (new_dimensions_unchanged img Hw Hh) as Hdim.
    split; [apply worker_renders_at_new_dimensions; assumption |].
    split; [intros; eapply home_renders_at_new_dimensions; eassumption |].
    split; [lia | intros; split; reflexivity].
  - pose proof (new_dimensions_landscape img Hover Hlt) as Hdim.
    destruct (scaled_side_bounds (height img) (width img)) as [Hmax Habs];
      [unfold maxDim in *; lia | lia |].
    eexists maxDim, _.
    split; [apply worker_renders_at_new_dimensions; eassumption |].
    split; [intros; eapply home_renders_at_new_dimensions; eassumption |].
    split.
    + intros _. split; [lia |]. split; [| lia].
      intros _. repeat split. exact Habs.
    + unfold maxDim in *. lia.
  - pose proof (new_dimensions_portrait img Hover Hle) as Hdim.
    destruct (scaled_side_bounds (width img) (height img)) as [Hmax Habs];
      [unfold maxDim in *; lia | lia |].
    eexists _, maxDim.
    split; [apply worker_renders_at_new_dimensions; eassumption |].
    split; [intros; eapply home_renders_at_new_dimensions; eassumption |].
    split.
    + intros _. split; [lia |]. split; [lia |].
      intros _. repeat split. exact Habs.
    + unfold maxDim in *. lia.
Qed.

(** A photograph of 6 MiB and 4096 x 2048 pixels is rendered at
    2048 x 1024. *)
Lemma oversized_images_are_scaled_witness :
  Worker.preprocessImage (Samples.rendering Samples.large_bitmap)
    (blob Samples.large_photo) =
    Succeeds (mkBlob (2048 * 1024) "image/jpeg" 2).
Proof.
  destruct (oversized_images_are_scaled
              (Samples.rendering Samples.large_bitmap)
              Samples.large_photo Samples.large_bitmap)
    as (w' & h' & Hworker & _ & Hscaled & _).
  - reflexivity.
  - reflexivity.
  - destruct Hscaled as (_ & Hlandscape & _); [left; reflexivity |].
    destruct Hlandscape as (Hw & Hh & _); [reflexivity |].
    rewrite Hworker, Hw, Hh. reflexivity.
Defined.

Lemma new_File_of_itself (file : File) :
  new_File (blob file) (name file) (type (blob file)) = file.
Proof. destruct file as [n [s t b]]. reflexivity. Qed.

(** C6 fails for the worker: a blob of 6 MiB that the browser cannot
    decode is answered with an error message, not with the blob. *)
Lemma worker_posts_an_error :
  Worker.preprocessImage Samples.undecoding (blob Samples.large_photo) =
    Fails "The source image could not be decoded." /\
  Worker.onmessage Samples.undecoding (blob Samples.large_photo) =
    Worker.PostError "The source image could not be decoded." /\
  Worker.onmessage Samples.undecoding (blob Samples.large_photo) <>
    Worker.PostBlob (blob Samples.large_photo).
Proof.
  repeat split. discriminate.
Qed.

(** C6, as the code has it.  The preprocessor of the page never throws,
    and returns the file it was given whenever the decoding fails, the
    canvas has no 2d context, the encoding throws, or the encoding yields
    null (a file of the same name, type and bytes is then built).  The
    worker catches the same failures but posts their message instead of
    the blob. *)
Theorem page_preprocessing_fails_open (env : browser) (file : File) :
  (exists processed, Home.preprocessImage env file = Succeeds processed) /\
  (forall message,
     createImageBitmap env (blob file) = Fails message ->
     Home.preprocessImage env file = Succeeds file /\
     (five_MiB < size (blob file) ->
      Worker.onmessage env (blob file) = Worker.PostError message)) /\
  (forall img w h,
     createImageBitmap env (blob file) = Succeeds img ->
     new_dimensions img = (w, h) ->
     (getContext_2d env w h = false ->
      Home.preprocessImage env file = Succeeds file /\
      (five_MiB < size (blob file) ->
       Worker.onmessage env (blob file) =
         Worker.PostError "Failed to get canvas context")) /\
     (getContext_2d env w h = true ->
      (forall message,
         toBlob env img w h (type (blob file)) (8 # 10) = Fails message ->
         Home.preprocessImage env file = Succeeds file) /\
      (toBlob env img w h (type (blob file)) (8 # 10) = Succeeds None ->
       Home.preprocessImage env file = Succeeds file) /\
      (forall message,
         five_MiB < size (blob file) ->
         convertToBlob env img w h (type (blob file)) (8 # 10) = Fails message ->
         Worker.onmessage env (blob file) = Worker.PostError message))).
Proof.
  unfold Worker.onmessage, Worker.preprocessImage, Home.preprocessImage.
  destruct (Z.leb_spec (size (blob file)) five_MiB) as [Hsmall | Hbig].
  - split; [eexists; reflexivity |]. split.
    + intros message _. split; [reflexivity | lia].
    + intros img w h _ _. split.
      * intros _. split; [reflexivity | lia].
      * intros _. split; [reflexivity |]. split; [reflexivity |].
        intros message Hlt. lia.
  - split; [| split].
    + destruct (createImageBitmap env (blob file)) as [m | img];
        [eexists; reflexivity |].
      destruct (new_dimensions img) as [w h].
      destruct (getContext_2d env w h); cbn [negb]; [| eexists; reflexivity].
      destruct (toBlob env img w h (type (blob file)) (8 # 10)) as [m | [b |]];
        eexists; reflexivity.
    + intros message ->. split; reflexivity.
    + intros img w h -> ->. split.
      * intros ->. cbn [negb]. split; reflexivity.
      * intros ->. cbn [negb]. split; [| split].
        -- intros message ->. reflexivity.
        -- intros ->. rewrite new_File_of_itself. reflexivity.
        -- intros message _ ->. reflexivity.
Qed.

(** A photograph of 6 MiB in a browser that cannot decode. *)
Lemma page_preprocessing_fails_open_witness :
  Home.preprocessImage Samples.undecoding Samples.large_photo =
    Succeeds Samples.large_photo.
Proof.
  destruct (page_preprocessing_fails_open Samples.undecoding Samples.large_photo)
    as (_ & Hdecode & _).
  destruct (Hdecode "The source image could not be decoded."%string eq_refl)
    as [Hpage _].
  exact Hpage.
Defined.

(** ** The progress animations *)

Local Open Scope Q_scope.

Lemma scaled_le (a b : Q) (k : Q) :
  0 <= k -> a <= b -> a / 3000 * k <= b / 3000 * k.
Proof.
  intros Hk Hab. unfold Qdiv.
  apply Qmult_le_compat_r; [| assumption].
  apply Qmult_le_compat_r; [assumption | discriminate].
Qed.

(** The value that [animate] computes from the elapsed time. *)
Lemma animate_value_monotone (a b : Q) :
  a <= b ->
  Qmin (a / Home.duration * 95) 95 <= Qmin (b / Home.duration * 95) 95.
Proof.
  intros Hab. apply Q.min_le_compat_r. apply scaled_le; [discriminate | assumption].
Qed.

Lemma animate_capped (timestamp : Q) (st : Home.state) :
  Home.progress (Home.animate timestamp st) <= 95.
Proof. unfold Home.animate. cbn [Home.progress]. apply Q.le_min_r. Qed.

(** Once [start] is set, the value grows with the timestamp. *)
Lemma animate_monotone (st : Home.state) (s t1 t2 : Q) :
  Home.start st = Some s -> ~ s == 0 -> t1 <= t2 ->
  Home.progress (Home.animate t1 st) <= Home.progress (Home.animate t2 st).
Proof.
  intros Hs Hnz Hle. unfold Home.animate. cbn [Home.progress]. rewrite Hs.
  destruct (Qeq_bool s 0) eqn:E; [apply Qeq_bool_iff in E; contradiction |].
  apply animate_value_monotone. lra.
Qed.

Lemma home_frame_step (st : Home.state) (last t : Q) :
  home_invariant st last -> last <= t ->
  Home.progress st <= Home.progress (Home.step st (Home.AnimationFrame t)) /\
  home_invariant (Home.step st (Home.AnimationFrame t)) t.
Proof.
  intros Hinv Hle. cbn [Home.step].
  destruct (Home.frame_requested st).
  - unfold Home.animate. cbn [Home.progress].
    assert (Hzero : Qmin ((t - t) / Home.duration * 95) 95 == 0).
    { assert (H0 : (t - t) / Home.duration * 95 == 0) by (unfold Home.duration; field).
      rewrite H0. apply Q.min_l. discriminate. }
    assert (Hfresh :
              home_invariant
                (Home.mkState (Home.isLoading st) (Home.error st)
                   (Home.compressionResult st)
                   (Qmin ((t - t) / Home.duration * 95) 95) (Home.stage st)
                   (Some t)
                   (negb (Qle_bool 95 (Qmin ((t - t) / Home.duration * 95) 95))))
                t).
    { destruct (Qeq_dec t 0) as [Ht | Ht].
      - left. cbn [Home.start Home.progress]. split; [right; eauto |].
        rewrite Hzero. apply Qle_refl.
      - right. exists t. cbn [Home.start Home.progress].
        repeat split; [assumption | apply Qle_refl]. }
    destruct Hinv as [[Hstart Hp] | (s & Hs & Hnz & Hp)].
    + destruct Hstart as [Hs | (s & Hs & Hz)]; rewrite Hs.
      * split; [rewrite Hzero; assumption | exact Hfresh].
      * apply Qeq_bool_iff in Hz. rewrite Hz.
        split; [rewrite Hzero; assumption | exact Hfresh].
    + rewrite Hs.
      destruct (Qeq_bool s 0) eqn:E; [apply Qeq_bool_iff in E; contradiction |].
      split.
      * eapply Qle_trans; [exact Hp |]. apply animate_value_monotone. lra.
      * right. exists s. cbn [Home.start Home.progress].
        repeat split; [assumption | apply Qle_refl].
  - split; [apply Qle_refl |].
    destruct Hinv as [Hfresh | (s & Hs & Hnz & Hp)]; [left; assumption |].
    right. exists s. repeat split; try assumption.
    eapply Qle_trans; [exact Hp |]. apply animate_value_monotone. lra.
Qed.

Lemma home_frames_sorted (tss : list Q) (st : Home.state) (last : Q) :
  home_invariant st last -> Sorted Qle (last :: tss) ->
  Sorted Qle
    (Home.progress st :: Home.progress_trace (map Home.AnimationFrame tss) st).
Proof.
  revert st last. induction tss as [| t rest IH]; intros st last Hinv Hsorted.
  - repeat constructor.
  - apply Sorted_inv in Hsorted. destruct Hsorted as [Hrest Hhd].
    apply HdRel_inv in Hhd.
    destruct (home_frame_step st last t Hinv Hhd) as [Hle Hinv'].
    cbn [map Home.progress_trace]. constructor.
    + apply (IH _ t); assumption.
    + constructor. exact Hle.
Qed.

(** Without a success the value stays at or below 95. *)
Lemma home_cap_preserved (evs : list Home.event) (st : Home.state) :
  Home.progress st <= 95 ->
  forallb (fun ev => negb (Home.is_success ev)) evs = true ->
  Home.progress (Home.run evs st) <= 95.
Proof.
  revert st. induction evs as [| ev rest IH]; intros st Hcap Hnone.
  - exact Hcap.
  - cbn [forallb] in Hnone. apply andb_true_iff in Hnone.
    destruct Hnone as [Hev Hrest].
    unfold Home.run. cbn [fold_left]. apply IH; [| exact Hrest].
    destruct ev as [t | data | message]; cbn [Home.step].
    + destruct (Home.frame_requested st); [apply animate_capped | exact Hcap].
    + discriminate.
    + exact Hcap.
Qed.

(** The value that [updateProgress] computes from the elapsed time. *)
Lemma updateProgress_value_monotone (a b : Z) :
  (a <= b)%Z ->
  Qmin (30 + inject_Z a / inject_Z HomeUpload.minTime * 69)
    HomeUpload.targetProgress <=
  Qmin (30 + inject_Z b / inject_Z HomeUpload.minTime * 69)
    HomeUpload.targetProgress.
Proof.
  intros Hab. apply Q.min_le_compat_r. apply Qplus_le_r.
  rewrite Zle_Qle in Hab. unfold Qdiv.
  apply Qmult_le_compat_r; [| discriminate].
  apply Qmult_le_compat_r; [assumption | discriminate].
Qed.

Lemma updateProgress_capped (now : Z) (st : HomeUpload.state) :
  HomeUpload.progress (HomeUpload.updateProgress now st) <= 99.
Proof.
  unfold HomeUpload.updateProgress. cbn [HomeUpload.progress]. apply Q.le_min_r.
Qed.

Lemma updateProgress_monotone (st : HomeUpload.state) (now1 now2 : Z) :
  (now1 <= now2)%Z ->
  HomeUpload.progress (HomeUpload.updateProgress now1 st) <=
  HomeUpload.progress (HomeUpload.updateProgress now2 st).
Proof.
  intros Hle. unfold HomeUpload.updateProgress. cbn [HomeUpload.progress].
  apply updateProgress_value_monotone. lia.
Qed.

Lemma upload_frame_step (st : HomeUpload.state) (last t : Z) :
  upload_invariant st last -> (last <= t)%Z ->
  HomeUpload.progress st <=
    HomeUpload.progress (HomeUpload.step st (HomeUpload.AnimationFrame t)) /\
  upload_invariant (HomeUpload.step st (HomeUpload.AnimationFrame t)) t.
Proof.
  unfold upload_invariant. intros Hinv Hle. cbn [HomeUpload.step].
  destruct (HomeUpload.frame_requested st).
  - unfold HomeUpload.updateProgress.
    cbn [HomeUpload.progress HomeUpload.startTime]. split; [| apply Qle_refl].
    eapply Qle_trans; [exact Hinv |]. apply updateProgress_value_monotone. lia.
  - split; [apply Qle_refl |].
    eapply Qle_trans; [exact Hinv |]. apply updateProgress_value_monotone. lia.
Qed.

Lemma upload_frames_sorted (nows : list Z) (st : HomeUpload.state) (last : Z) :
  upload_invariant st last -> Sorted Z.le (last :: nows) ->
  Sorted Qle
    (HomeUpload.progress st ::
     HomeUpload.progress_trace (map HomeUpload.AnimationFrame nows) st).
Proof.
  revert st last. induction nows as [| t rest IH]; intros st last Hinv Hsorted.
  - repeat constructor.
  - apply Sorted_inv in Hsorted. destruct Hsorted as [Hrest Hhd].
    apply HdRel_inv in Hhd.
    destruct (upload_frame_step st last t Hinv Hhd) as [Hle Hinv'].
    cbn [map HomeUpload.progress_trace]. constructor.
    + apply (IH _ t); assumption.
    + constructor. exact Hle.
Qed.

Lemma upload_cap_preserved (evs : list HomeUpload.event) (st : HomeUpload.state) :
  HomeUpload.progress st <= 99 ->
  forallb (fun ev => negb (HomeUpload.is_completion ev)) evs = true ->
  HomeUpload.progress (HomeUpload.run evs st) <= 99.
Proof.
  revert st. induction evs as [| ev rest IH]; intros st Hcap Hnone.
  - exact Hcap.
  - cbn [forallb] in Hnone. apply andb_true_iff in Hnone.
    destruct Hnone as [Hev Hrest].
    unfold HomeUpload.run. cbn [fold_left]. apply IH; [| exact Hrest].
    destruct ev as [t | result | message]; cbn [HomeUpload.step].
    + destruct (HomeUpload.frame_requested st);
        [apply updateProgress_capped | exact Hcap].
    + discriminate.
    + exact Hcap.
Qed.

(** C8. While the mutation is in flight, the value that [animate] (cap
    95) and [updateProgress] (cap 99) show never exceeds the cap, which
    is below 100; it does not decrease along frames whose timestamps do
    not decrease; whatever the frames and failures, it stays at or below
    the cap as long as no completion arrives; and the completion sets it
    to 100. *)
Theorem synthetic_progress_is_monotone_and_capped :
  (forall timestamp st, Home.progress (Home.animate timestamp st) <= 95) /\
  (forall st s t1 t2,
     Home.start st = Some s -> ~ s == 0 -> t1 <= t2 ->
     Home.progress (Home.animate t1 st) <= Home.progress (Home.animate t2 st)) /\
  (forall st timestamps,
     Sorted Qle timestamps ->
     Sorted Qle
       (Home.progress (Home.begin_compressing st) ::
        Home.progress_trace (map Home.AnimationFrame timestamps)
          (Home.begin_compressing st))) /\
  (forall st evs,
     forallb (fun ev => negb (Home.is_success ev)) evs = true ->
     Home.progress (Home.run evs (Home.begin_compressing st)) <= 95 /\
     Home.progress (Home.run evs (Home.begin_compressing st)) < 100) /\
  (forall data st, Home.progress (Home.onSuccess data st) = 100) /\
  (forall now st, HomeUpload.progress (HomeUpload.updateProgress now st) <= 99) /\
  (forall st now1 now2,
     (now1 <= now2)%Z ->
     HomeUpload.progress (HomeUpload.updateProgress now1 st) <=
     HomeUpload.progress (HomeUpload.updateProgress now2 st)) /\
  (forall st start nows,
     HomeUpload.progress st <= 30 ->
     Sorted Z.le (start :: nows) ->
     Sorted Qle
       (HomeUpload.progress (HomeUpload.begin_compressing start st) ::
        HomeUpload.progress_trace (map HomeUpload.AnimationFrame nows)
          (HomeUpload.begin_compressing start st))) /\
  (forall st start evs,
     HomeUpload.progress st <= 30 ->
     forallb (fun ev => negb (HomeUpload.is_completion ev)) evs = true ->
     HomeUpload.progress
       (HomeUpload.run evs (HomeUpload.begin_compressing start st)) <= 99 /\
     HomeUpload.progress
       (HomeUpload.run evs (HomeUpload.begin_compressing start st)) < 100) /\
  (forall result st, HomeUpload.progress (HomeUpload.completed result st) = 100).
Proof.
  split; [exact animate_capped |].
  split; [exact animate_monotone |].
  split.
  { intros st timestamps Hsorted.
    destruct timestamps as [| t rest]; [repeat constructor |].
    apply (home_frames_sorted (t :: rest) _ t).
    - left. cbn [Home.begin_compressing Home.start Home.progress].
      split; [left; reflexivity | apply Qle_refl].
    - constructor; [exact Hsorted | constructor; apply Qle_refl]. }
  split.
  { intros st evs Hnone.
    assert (Hcap : Home.progress (Home.run evs (Home.begin_compressing st)) <= 95).
    { apply home_cap_preserved; [discriminate | exact Hnone]. }
    split; [exact Hcap |].
    eapply Qle_lt_trans; [exact Hcap | reflexivity]. }
  split; [reflexivity |].
  split; [exact updateProgress_capped |].
  split; [exact updateProgress_monotone |].
  split.
  { intros st start nows Hupload Hsorted.
    apply (upload_frames_sorted nows _ start); [| exact Hsorted].
    unfold upload_invariant.
    cbn [HomeUpload.begin_compressing HomeUpload.progress HomeUpload.startTime].
    rewrite Z.sub_diag. apply Q.min_glb.
    - eapply Qle_trans; [exact Hupload | discriminate].
    - eapply Qle_trans; [exact Hupload | discriminate]. }
  split.
  { intros st start evs Hupload Hnone.
    assert (Hcap : HomeUpload.progress
                     (HomeUpload.run evs (HomeUpload.begin_compressing start st))
                   <= 99).
    { apply upload_cap_preserved; [| exact Hnone].
      cbn [HomeUpload.begin_compressing HomeUpload.progress].
      eapply Qle_trans; [exact Hupload | discriminate]. }
    split; [exact Hcap |].
    eapply Qle_lt_trans; [exact Hcap | reflexivity]. }
  reflexivity.
Qed.

(** Three frames of the page, a failure after two frames, and three
    frames of the uploading page whose clock started at 0. *)
Lemma synthetic_progress_is_monotone_and_capped_witness :
  Sorted Qle
    (Home.progress (Home.begin_compressing Samples.home_initial) ::
     Home.progress_trace (map Home.AnimationFrame [1000; 2500; 4000])
       (Home.begin_compressing Samples.home_initial)) /\
  Home.progress
    (Home.run [Home.AnimationFrame 1000; Home.AnimationFrame 9000;
               Home.MutationError "timeout"]
       (Home.begin_compressing Samples.home_initial)) < 100 /\
  Sorted Qle
    (HomeUpload.progress
       (HomeUpload.begin_compressing 0 Samples.upload_finished) ::
     HomeUpload.progress_trace
       (map HomeUpload.AnimationFrame [16; 7500; 30000]%Z)
       (HomeUpload.begin_compressing 0 Samples.upload_finished)).
Proof.
  destruct synthetic_progress_is_monotone_and_capped
    as (_ & _ & Hsorted & Hcap & _ & _ & _ & Hupload & _).
  split; [| split].
  - apply Hsorted. repeat constructor; discriminate.
  - apply Hcap. reflexivity.
  - apply Hupload; [discriminate |]. repeat constructor; discriminate.
Defined.

(** * Further properties of the orchestrators *)

Local Open Scope Z_scope.

(** ** Failures and replies *)

(** The shape of every reply of the REST handler. *)
Lemma route_reply_shape (w : world) (input : compression_input) :
  exists reply,
    fst (Route.POST input w []) = Returned reply /\
    ((Route.status reply = 200 /\
      exists r, Route.payload reply = Route.ResultBody r /\
                success r = true /\ truthy (compressedImage r) = true) \/
     ((Route.status reply = 400 \/ Route.status reply = 500) /\
      exists message, Route.payload reply = Route.ErrorBody message)).
Proof.
  unfold Route.POST, try_catch, Route.POST_body.
  run_orchestrator; eexists; (split; [reflexivity |]);
    cbn [Route.status Route.payload Route.error_response];
    solve [ left; split; [reflexivity |]; eexists; repeat split
          | right; split; [auto |]; eexists; reflexivity ].
Qed.

(** X1. Whatever fails inside the tRPC procedure, the caller sees a
    TRPCError: network failures, bodies that are not JSON and missing
    fields are wrapped by the catch block. *)
Theorem router_throws_only_trpc_errors
    (w : world) (input : compression_input) (e : exn) :
  fst (Router.compress input w []) = Thrown e ->
  exists code message, e = TRPCError code message.
Proof.
  unfold Router.compress, try_catch, Router.compress_body.
  run_orchestrator; intros H; try discriminate; injection H as <-; eauto.
Qed.

Lemma router_throws_only_trpc_errors_witness :
  exists code message,
    TRPCError INTERNAL_SERVER_ERROR "fetch failed" = TRPCError code message.
Proof.
  apply (router_throws_only_trpc_errors (Samples.scripted [])
           Samples.webp_to_png).
  reflexivity.
Defined.

(** X2. The REST handler never throws: it replies with status 200 and a
    result whose [success] is true, or with status 400 or 500 and an
    error message. *)
Theorem post_always_replies (w : world) (input : compression_input) :
  exists reply,
    fst (Route.POST input w []) = Returned reply /\
    ((Route.status reply = 200 /\
      exists r, Route.payload reply = Route.ResultBody r /\ success r = true) \/
     ((Route.status reply = 400 \/ Route.status reply = 500) /\
      exists message, Route.payload reply = Route.ErrorBody message)).
Proof.
  destruct (route_reply_shape w input) as (reply & Hrun & Hshape).
  exists reply. split; [exact Hrun |].
  destruct Hshape as [(Hs & r & Hp & Hok & _) | Herr]; [left | right; exact Herr].
  split; [exact Hs |]. exists r. split; assumption.
Qed.

(** X3. One attempt per phase: each orchestrator starts with the fetch
    of the source, makes at most four requests, and at most one of them
    is a conversion call. *)
Theorem at_most_four_requests (w : world) (input : compression_input) :
  (exists rest,
     snd (Router.compress input w []) = source_request input :: rest /\
     (List.length rest <= 3)%nat /\
     (List.length (filter is_conversion_call rest) <= 1)%nat) /\
  (exists rest,
     snd (Route.POST input w []) = source_request input :: rest /\
     (List.length rest <= 3)%nat /\
     (List.length (filter is_conversion_call rest) <= 1)%nat).
Proof.
  split.
  - unfold Router.compress, try_catch, Router.compress_body.
    run_orchestrator; eexists; (split; [reflexivity |]); cbn; lia.
  - unfold Route.POST, try_catch, Route.POST_body.
    run_orchestrator; eexists; (split; [reflexivity |]); cbn; lia.
Qed.

(** X4. When the source cannot be fetched, the shrink service is never
    contacted: a failure status gives "Failed to fetch image from URL"
    as INTERNAL_SERVER_ERROR, respectively "Failed to fetch image" with
    status 400, and a network failure gives its own message as
    INTERNAL_SERVER_ERROR, respectively with status 500. *)
Theorem unfetchable_source_stops_the_pipeline
    (w : world) (input : compression_input) :
  (forall source,
     w [] (source_request input) = Responds source -> ok source = false ->
     Router.compress input w [] =
       (Thrown (TRPCError INTERNAL_SERVER_ERROR "Failed to fetch image from URL"),
        [source_request input]) /\
     Route.POST input w [] =
       (Returned (Route.error_response "Failed to fetch image" 400),
        [source_request input])) /\
  (forall message,
     w [] (source_request input) = NetworkError message ->
     Router.compress input w [] =
       (Thrown (TRPCError INTERNAL_SERVER_ERROR message), [source_request input]) /\
     Route.POST input w [] =
       (Returned (Route.error_response message 500), [source_request input])).
Proof.
  split.
  - intros source Hsrc Hok. split.
    + unfold Router.compress, try_catch, Router.compress_body.
      follow_answers. reflexivity.
    + unfold Route.POST, try_catch, Route.POST_body.
      follow_answers. reflexivity.
  - intros message Hsrc. split.
    + unfold Router.compress, try_catch, Router.compress_body.
      follow_answers. reflexivity.
    + unfold Route.POST, try_catch, Route.POST_body.
      follow_answers. reflexivity.
Qed.

Lemma unfetchable_source_stops_the_pipeline_witness :
  Route.POST Samples.webp_to_png Fixtures.missing_source [] =
    (Returned (Route.error_response "Failed to fetch image" 400),
     [source_request Samples.webp_to_png]).
Proof.
  destruct (unfetchable_source_stops_the_pipeline Fixtures.missing_source
              Samples.webp_to_png) as [Hstatus _].
  destruct (Hstatus _ eq_refl eq_refl) as [_ Hroute].
  exact Hroute.
Defined.

(** X5. A conversion call that is answered with a failure status ends
    the request after three requests, with "Failed to convert image
    format" as BAD_REQUEST in the tRPC procedure and with status 400 in
    the REST handler; the body of the answer is not looked at. *)
Theorem refused_conversion_is_terminal
    (w : world) (input : compression_input)
    (source shrunk : response) (out : tiny_output) :
  mimeType input <> outputFormat input ->
  phase1_succeeds w input source shrunk out ->
  (forall converted,
     w [source_request input; shrink_request input (body source)]
       (convert_request (out_url out) (Router.apiOptions_of input)) =
       Responds converted ->
     ok converted = false ->
     Router.compress input w [] =
       (Thrown (TRPCError BAD_REQUEST "Failed to convert image format"),
        [source_request input; shrink_request input (body source);
         convert_request (out_url out) (Router.apiOptions_of input)])) /\
  (forall converted,
     w [source_request input; shrink_request input (body source)]
       (convert_request (out_url out) (Route.apiOptions_of input)) =
       Responds converted ->
     ok converted = false ->
     Route.POST input w [] =
       (Returned (Route.error_response "Failed to convert image format" 400),
        [source_request input; shrink_request input (body source);
         convert_request (out_url out) (Route.apiOptions_of input)])).
Proof.
  intros Hne (Hsrc & Hok1 & Hshr & Hok2 & data & Hjson & Hout).
  split; intros converted Hconv Hok3.
  - pose proof (router_convert_set input Hne) as Hc.
    unfold Router.compress, try_catch, Router.compress_body.
    follow_answers. reflexivity.
  - assert (Heq : mime_eqb (outputFormat input) (mimeType input) = false).
    { apply mime_eqb_neq. congruence. }
    unfold Route.POST, try_catch, Route.POST_body.
    follow_answers. reflexivity.
Qed.

Lemma refused_conversion_is_terminal_witness :
  fst (Router.compress Samples.webp_to_png Fixtures.refused_conversion []) =
    Thrown (TRPCError BAD_REQUEST "Failed to convert image format").
Proof.
  destruct (refused_conversion_is_terminal Fixtures.refused_conversion
              Samples.webp_to_png
              (Samples.image "image/webp" (repeat x00 10))
              (Samples.descriptor Samples.shrunk_location)
              Samples.shrunk_location) as [Hrouter _].
  - discriminate.
  - unfold phase1_succeeds. repeat split. eexists. split; reflexivity.
  - rewrite (Hrouter _ eq_refl eq_refl). reflexivity.
Defined.

(** X6. In the tRPC procedure, a conversion answered by a JSON
    descriptor is followed by one download, without Authorization, of
    the location that the descriptor names; the result measures both
    sizes on the bytes received (the sizes declared by the descriptors
    are not used) and is labelled with the requested format. *)
Theorem router_descriptor_conversion
    (w : world) (input : compression_input)
    (source shrunk converted downloaded : response)
    (out out' : tiny_output) (data' : json_value) :
  mimeType input <> outputFormat input ->
  phase1_succeeds w input source shrunk out ->
  conversion_answered w input source out (Router.apiOptions_of input) converted ->
  is_json_content_type (content_type converted) = true ->
  json converted = Parsed data' ->
  json_output data' = Some out' ->
  w [source_request input; shrink_request input (body source);
     convert_request (out_url out) (Router.apiOptions_of input)]
    (download_request (out_url out') false) = Responds downloaded ->
  ok downloaded = true ->
  Router.compress input w [] =
    (Returned
       (mkResult true
          (byteLength (body source)) (byteLength (body downloaded))
          (Z.max 0 (byteLength (body source) - byteLength (body downloaded)))
          (percent_of_difference (byteLength (body source))
             (byteLength (body downloaded)))
          (data_uri (outputFormat input) (body downloaded))
          (mime_string (mimeType input)) (mime_string (outputFormat input))),
     [source_request input; shrink_request input (body source);
      convert_request (out_url out) (Router.apiOptions_of input);
      download_request (out_url out') false]).
Proof.
  intros Hne (Hsrc & Hok1 & Hshr & Hok2 & data & Hjson & Hout) (Hconv & Hok3)
    Hct Hjson' Hout' Hdl Hok4.
  pose proof (router_convert_set input Hne) as Hc.
  unfold Router.compress, try_catch, Router.compress_body.
  follow_answers. reflexivity.
Qed.

Lemma router_descriptor_conversion_witness :
  exists r,
    fst (Router.compress Samples.webp_to_png Samples.shrinking_json []) =
      Returned r /\
    originalSize r = 10 /\ compressedSize r = 3 /\ savedBytes r = 7 /\
    compressionRatio r = JS.of_Z 70.
Proof.
  rewrite (router_descriptor_conversion Samples.shrinking_json
             Samples.webp_to_png
             (Samples.image "image/webp" (repeat x00 10))
             (Samples.descriptor Samples.shrunk_location)
             (Samples.descriptor Samples.converted_location)
             (Samples.image "image/png" [x02; x03; x04])
             Samples.shrunk_location Samples.converted_location
             (mkJson None (Some Samples.converted_location))).
  - eexists. split; [reflexivity |]. repeat split.
  - discriminate.
  - unfold phase1_succeeds. repeat split. eexists. split; reflexivity.
  - split; reflexivity.
  - reflexivity.
  - reflexivity.
  - reflexivity.
  - reflexivity.
  - reflexivity.
Defined.

(** X7. The REST handler accepts every conversion that is not a PNG
    below 80% of the source: for another target format whatever the
    sizes, and for PNG from 80% on (the bound included), it replies with
    status 200 and a result that measures the source and the final
    bytes, also when the conversion response carried the image itself. *)
Theorem post_accepts_conversion
    (w : world) (input : compression_input)
    (source shrunk converted : response) (out : tiny_output)
    (final : list byte) :
  mimeType input <> outputFormat input ->
  phase1_succeeds w input source shrunk out ->
  conversion_answered w input source out (Route.apiOptions_of input) converted ->
  converted_bytes w input source out (Route.apiOptions_of input) converted final ->
  outputFormat input <> image_png \/
  8 * byteLength (body source) <= 10 * byteLength final ->
  fst (Route.POST input w []) =
    Returned
      (Route.mkNext 200
         (Route.ResultBody
            (mkResult true
               (byteLength (body source)) (byteLength final)
               (Z.max 0 (byteLength (body source) - byteLength final))
               (percent_of_difference (byteLength (body source))
                  (byteLength final))
               (data_uri (outputFormat input) final)
               (mime_string (mimeType input))
               (mime_string (outputFormat input))))).
Proof.
  intros Hne (Hsrc & Hok1 & Hshr & Hok2 & data & Hjson & Hout)
    (Hconv & Hok3) Hfinal Hpass.
  assert (Heq : mime_eqb (outputFormat input) (mimeType input) = false).
  { apply mime_eqb_neq. congruence. }
  assert (Hcheck :
            mime_eqb (outputFormat input) image_png
            && Route.suspicious_png (byteLength final) (byteLength (body source))
            = false).
  { destruct Hpass as [Hother | Hlarge].
    - rewrite mime_eqb_neq by assumption. reflexivity.
    - apply andb_false_iff. right. apply not_true_iff_false.
      rewrite suspicious_png_iff by apply byteLength_nonneg. lia. }
  unfold Route.POST, try_catch, Route.POST_body.
  destruct Hfinal as [(Hct & ->) | (Hct & data' & out' & dl & Hj & Ho & Hdl & Hok4 & ->)];
    follow_answers; reflexivity.
Qed.

Lemma post_accepts_conversion_witness :
  exists r,
    fst (Route.POST Fixtures.webp_to_avif Samples.shrinking_binary []) =
      Returned (Route.mkNext 200 (Route.ResultBody r)) /\
    originalSize r = 10 /\ compressedSize r = 3 /\ savedBytes r = 7.
Proof.
  rewrite (post_accepts_conversion Samples.shrinking_binary Fixtures.webp_to_avif
             (Samples.image "image/webp" (repeat x00 10))
             (Samples.descriptor Samples.shrunk_location)
             (Samples.image "image/png" [x02; x03; x04])
             Samples.shrunk_location [x02; x03; x04]).
  - eexists. split; [reflexivity |]. repeat split.
  - discriminate.
  - unfold phase1_succeeds. repeat split. eexists. split; reflexivity.
  - split; reflexivity.
  - left. split; reflexivity.
  - left. discriminate.
Defined.

(** ** What every result says *)

(** X8. Every result of either orchestrator is labelled consistently:
    [compressedImage] is the data URI of some payload under the
    requested output format, [outputType] is that format,
    [originalType] is the type of the request, and [compressedSize] is
    the number of bytes of the payload. *)
Theorem results_are_labelled_with_the_output_format
    (w : world) (input : compression_input) (r : CompressionResult) :
  fst (Router.compress input w []) = Returned r \/
  (exists status,
     fst (Route.POST input w []) =
       Returned (Route.mkNext status (Route.ResultBody r))) ->
  exists payload,
    compressedImage r = data_uri (outputFormat input) payload /\
    outputType r = mime_string (outputFormat input) /\
    originalType r = mime_string (mimeType input) /\
    compressedSize r = byteLength payload.
Proof.
  intros [Hrouter | (status & Hroute)].
  - revert Hrouter.
    unfold Router.compress, try_catch, Router.compress_body.
    run_orchestrator; intros H; try discriminate; injection H as <-;
      eexists; repeat split.
  - revert Hroute.
    unfold Route.POST, try_catch, Route.POST_body.
    run_orchestrator; intros H; try discriminate; injection H as <- <-;
      cbn [Route.success_result compressedImage outputType originalType
           compressedSize];
      try (eexists; repeat split; fail).
    match goal with
    | E : mime_eqb _ _ = true |- _ => apply mime_eqb_eq in E; rewrite E
    end.
    eexists; repeat split.
Qed.

Lemma results_are_labelled_with_the_output_format_witness :
  exists payload,
    data_uri image_png [x02; x03; x04] = data_uri image_png payload /\
    "image/png"%string = mime_string image_png /\
    "image/webp"%string = mime_string image_webp /\
    3 = byteLength payload.
Proof.
  apply (results_are_labelled_with_the_output_format Samples.shrinking_binary
           Samples.webp_to_png
           (mkResult true 3 3 0 (JS.of_Z 0)
              (data_uri image_png [x02; x03; x04]) "image/webp" "image/png")).
  left. reflexivity.
Defined.

(** X9. The options of a request reach the service only inside the
    conversion call of the tRPC procedure: the REST handler ignores
    them, the tRPC procedure ignores them when no conversion is
    requested (so a requested resize is silently dropped), and
    [quality] and [convertAutomatically] never have an effect. *)
Theorem options_are_mostly_ignored
    (w : world) (input : compression_input)
    (o : option compression_options) :
  Route.POST (with_options input o) w [] = Route.POST input w [] /\
  (outputFormat input = mimeType input ->
   Router.compress (with_options input o) w [] = Router.compress input w []) /\
  (forall q q' c c' p rz,
     Router.compress (with_options input (Some (mkOptions q p rz c))) w [] =
     Router.compress (with_options input (Some (mkOptions q' p rz c'))) w []).
Proof.
  split; [reflexivity |]. split; [| reflexivity].
  intros Hsame.
  assert (Hsame' : outputFormat (with_options input o)
                   = mimeType (with_options input o)) by exact Hsame.
  pose proof (router_convert_unset input Hsame) as Hc.
  pose proof (router_convert_unset (with_options input o) Hsame') as Hc'.
  unfold Router.compress, try_catch, Router.compress_body.
  rewrite Hc, Hc'. reflexivity.
Qed.

Lemma options_are_mostly_ignored_witness :
  Router.compress
    (with_options Samples.jpeg_to_jpeg (Some Fixtures.all_options))
    Samples.growing [] =
  Router.compress Samples.jpeg_to_jpeg Samples.growing [].
Proof.
  destruct (options_are_mostly_ignored Samples.growing Samples.jpeg_to_jpeg
              (Some Fixtures.all_options)) as (_ & Hrouter & _).
  apply Hrouter. reflexivity.
Defined.

(** ** Unusable answers *)

(** X10. A shrink call that is answered with a success status but
    without a usable descriptor (a body that is not JSON, or one
    without [output]) ends the request after two requests as an
    internal error: INTERNAL_SERVER_ERROR in the tRPC procedure, status
    500 in the REST handler, with the message of the exception. *)
Theorem unusable_descriptor_is_internal_error
    (w : world) (input : compression_input) (source shrunk : response)
    (message : string) :
  w [] (source_request input) = Responds source ->
  ok source = true ->
  w [source_request input] (shrink_request input (body source)) = Responds shrunk ->
  ok shrunk = true ->
  json shrunk = Malformed message \/
  (exists data,
     json shrunk = Parsed data /\ json_output data = None /\
     message = "Cannot read properties of undefined (reading 'url')"%string) ->
  Router.compress input w [] =
    (Thrown (TRPCError INTERNAL_SERVER_ERROR message),
     [source_request input; shrink_request input (body source)]) /\
  Route.POST input w [] =
    (Returned (Route.error_response message 500),
     [source_request input; shrink_request input (body source)]).
Proof.
  intros Hsrc Hok1 Hshr Hok2 [Hjson | (data & Hjson & Hout & ->)]; split.
  - unfold Router.compress, try_catch, Router.compress_body.
    follow_answers. reflexivity.
  - unfold Route.POST, try_catch, Route.POST_body.
    follow_answers. reflexivity.
  - unfold Router.compress, try_catch, Router.compress_body.
    follow_answers. reflexivity.
  - unfold Route.POST, try_catch, Route.POST_body.
    follow_answers.
    destruct (mime_eqb (outputFormat input) (mimeType input));
      follow_answers; reflexivity.
Qed.

Lemma unusable_descriptor_is_internal_error_witness :
  fst (Route.POST Samples.webp_to_png Fixtures.empty_descriptor []) =
    Returned (Route.error_response
                "Cannot read properties of undefined (reading 'url')" 500).
Proof.
  destruct (unusable_descriptor_is_internal_error Fixtures.empty_descriptor
              Samples.webp_to_png
              (Samples.image "image/webp" (repeat x00 10))
              (mkResponse true (Some "application/json"%string) []
                 (Parsed (mkJson None None)))
              "Cannot read properties of undefined (reading 'url')")
    as [_ Hroute].
  - reflexivity.
  - reflexivity.
  - reflexivity.
  - reflexivity.
  - right. eexists. repeat split.
  - rewrite Hroute. reflexivity.
Defined.

(** X11. When no conversion is requested and the location of phase 1
    cannot be downloaded, the request ends after three requests with
    "Failed to fetch compressed image": as INTERNAL_SERVER_ERROR in the
    tRPC procedure, which downloads without Authorization, and with
    status 400 in the REST handler, which sends the Authorization
    header. *)
Theorem undownloadable_output_is_reported
    (w : world) (input : compression_input)
    (source shrunk : response) (out : tiny_output) :
  outputFormat input = mimeType input ->
  phase1_succeeds w input source shrunk out ->
  (forall downloaded,
     w [source_request input; shrink_request input (body source)]
       (download_request (out_url out) false) = Responds downloaded ->
     ok downloaded = false ->
     Router.compress input w [] =
       (Thrown (TRPCError INTERNAL_SERVER_ERROR "Failed to fetch compressed image"),
        [source_request input; shrink_request input (body source);
         download_request (out_url out) false])) /\
  (forall downloaded,
     w [source_request input; shrink_request input (body source)]
       (download_request (out_url out) true) = Responds downloaded ->
     ok downloaded = false ->
     Route.POST input w [] =
       (Returned (Route.error_response "Failed to fetch compressed image" 400),
        [source_request input; shrink_request input (body source);
         download_request (out_url out) true])).
Proof.
  intros Hsame (Hsrc & Hok1 & Hshr & Hok2 & data & Hjson & Hout).
  split; intros downloaded Hdl Hok3.
  - pose proof (router_convert_unset input Hsame) as Hc.
    unfold Router.compress, try_catch, Router.compress_body.
    follow_answers. reflexivity.
  - assert (Heq : mime_eqb (outputFormat input) (mimeType input) = true).
    { apply mime_eqb_eq. assumption. }
    unfold Route.POST, try_catch, Route.POST_body.
    follow_answers. reflexivity.
Qed.

Lemma undownloadable_output_is_reported_witness :
  fst (Route.POST Samples.jpeg_to_jpeg Fixtures.vanished_output []) =
    Returned (Route.error_response "Failed to fetch compressed image" 400).
Proof.
  destruct (undownloadable_output_is_reported Fixtures.vanished_output
              Samples.jpeg_to_jpeg
              (Samples.image "image/jpeg" (repeat x00 10))
              (Samples.descriptor Samples.shrunk_location)
              Samples.shrunk_location) as [_ Hroute].
  - reflexivity.
  - unfold phase1_succeeds. repeat split. eexists. split; reflexivity.
  - rewrite (Hroute _ eq_refl eq_refl). reflexivity.
Defined.

(** * Further properties of the preprocessors *)

(** X12. Whatever the browser does, the file that the preprocessor of
    the page returns has the name and the type of the file it was
    given. *)
Theorem page_preprocessing_keeps_name_and_type
    (env : browser) (file processed : File) :
  Home.preprocessImage env file = Succeeds processed ->
  name processed = name file /\ type (blob processed) = type (blob file).
Proof.
  unfold Home.preprocessImage.
  destruct (size (blob file) <=? five_MiB);
    [intros H; injection H as <-; split; reflexivity |].
  destruct (createImageBitmap env (blob file)) as [m | img];
    [intros H; injection H as <-; split; reflexivity |].
  destruct (new_dimensions img) as [w h].
  destruct (getContext_2d env w h); cbn [negb];
    [| intros H; injection H as <-; split; reflexivity].
  destruct (toBlob env img w h (type (blob file)) (8 # 10)) as [m | b];
    intros H; injection H as <-; split; reflexivity.
Qed.

Lemma page_preprocessing_keeps_name_and_type_witness :
  name (new_File (mkBlob (2048 * 1024) "image/jpeg" 2) "photo.jpg" "image/jpeg")
    = name Samples.large_photo /\
  type (blob (new_File (mkBlob (2048 * 1024) "image/jpeg" 2)
                "photo.jpg" "image/jpeg"))
    = type (blob Samples.large_photo).
Proof.
  apply (page_preprocessing_keeps_name_and_type
           (Samples.rendering Samples.large_bitmap) Samples.large_photo).
  reflexivity.
Defined.

Lemma of_Z_inj (a b : Z) : JS.of_Z a = JS.of_Z b -> a = b.
Proof. intros H. injection H as H. exact H. Qed.

(** The shorter side after scaling, for a longer side above [maxDim]. *)
Lemma scaled_side_range (shorter longer : Z) :
  maxDim < longer -> 0 <= shorter <= longer ->
  let scaled :=
    JS.round_half_up (inject_Z shorter / inject_Z longer * inject_Z maxDim) in
  0 <= scaled <= shorter /\ (scaled = 0 <-> 2 * maxDim * shorter < longer).
Proof.
  intros Hlong Hshort scaled. unfold scaled, maxDim in *.
  rewrite round_div_mul by lia.
  set (n := 2 * shorter * 2048 + longer).
  pose proof (Z.mul_div_le n (2 * longer) ltac:(lia)) as Hlow.
  pose proof (Z.mul_succ_div_gt n (2 * longer) ltac:(lia)) as Hhigh.
  assert (Hpos : 0 <= n / (2 * longer)) by (apply Z.div_pos; unfold n; lia).
  unfold n in *. split; [split; [exact Hpos |] |].
  - apply Z.lt_succ_r. apply Z.div_lt_upper_bound; nia.
  - split; intros H; [rewrite H in Hhigh; lia |].
    apply Z.div_small. lia.
Qed.

(** X13. The preprocessors never enlarge an image and never render
    above 2048 pixels: for a bitmap of non-negative dimensions, both new
    dimensions are between 0 and the smaller of the old dimension and
    2048. *)
Theorem new_dimensions_never_enlarge (img : ImageBitmap) :
  0 <= width img -> 0 <= height img ->
  exists w' h' : Z,
    new_dimensions img = (JS.of_Z w', JS.of_Z h') /\
    0 <= w' <= Z.min (width img) 2048 /\
    0 <= h' <= Z.min (height img) 2048.
Proof.
  intros Hw Hh. change 2048 with maxDim.
  assert (Hcases :
            (width img <= maxDim /\ height img <= maxDim) \/
            ((maxDim < width img \/ maxDim < height img) /\
             height img < width img) \/
            ((maxDim < width img \/ maxDim < height img) /\
             width img <= height img)) by lia.
  destruct Hcases as [[Hsw Hsh] | [[Hover Hlt] | [Hover Hle]]].
  - rewrite new_dimensions_unchanged by assumption.
    exists (width img), (height img). split; [reflexivity | lia].
  - rewrite new_dimensions_landscape by assumption.
    destruct (scaled_side_range (height img) (width img)) as [Hrange _];
      [lia | lia |].
    destruct (scaled_side_bounds (height img) (width img)) as [Hmax _];
      [unfold maxDim in *; lia | lia |].
    cbv zeta in Hrange, Hmax.
    eexists _, _. split; [reflexivity |]. unfold maxDim in *. lia.
  - rewrite new_dimensions_portrait by assumption.
    destruct (scaled_side_range (width img) (height img)) as [Hrange _];
      [lia | lia |].
    destruct (scaled_side_bounds (width img) (height img)) as [Hmax _];
      [unfold maxDim in *; lia | lia |].
    cbv zeta in Hrange, Hmax.
    eexists _, _. split; [reflexivity |]. unfold maxDim in *. lia.
Qed.

Lemma new_dimensions_never_enlarge_witness :
  exists w' h' : Z,
    new_dimensions Samples.large_bitmap = (JS.of_Z w', JS.of_Z h') /\
    0 <= w' <= Z.min 4096 2048 /\
    0 <= h' <= Z.min 2048 2048.
Proof.
  apply (new_dimensions_never_enlarge Samples.large_bitmap).
  - discriminate.
  - discriminate.
Defined.

(** X14. A very elongated image loses its shorter side: for a width
    above 2048 and a smaller height, the new height is 0 exactly when
    the width is more than 4096 times the height (and symmetrically),
    so that the canvas is empty. *)
Theorem elongated_images_collapse (img : ImageBitmap) :
  (2048 < width img -> 0 <= height img < width img ->
   exists h' : Z,
     new_dimensions img = (JS.of_Z 2048, JS.of_Z h') /\
     (h' = 0 <-> 4096 * height img < width img)) /\
  (2048 < height img -> 0 <= width img <= height img ->
   exists w' : Z,
     new_dimensions img = (JS.of_Z w', JS.of_Z 2048) /\
     (w' = 0 <-> 4096 * width img < height img)).
Proof.
  change 2048 with maxDim. split; intros Hlong Hshort.
  - rewrite new_dimensions_landscape by lia.
    destruct (scaled_side_range (height img) (width img)) as [_ Hzero];
      [lia | lia |].
    cbv zeta in Hzero.
    eexists. split; [reflexivity |]. unfold maxDim in *.
    rewrite Hzero. lia.
  - rewrite new_dimensions_portrait by lia.
    destruct (scaled_side_range (width img) (height img)) as [_ Hzero];
      [lia | lia |].
    cbv zeta in Hzero.
    eexists. split; [reflexivity |]. unfold maxDim in *.
    rewrite Hzero. lia.
Qed.

Lemma elongated_images_collapse_witness :
  new_dimensions Fixtures.strip_bitmap = (JS.of_Z 2048, JS.of_Z 0).
Proof.
  destruct (elongated_images_collapse Fixtures.strip_bitmap) as [Hwide _].
  destruct Hwide as (h' & Hdim & Hzero).
  - reflexivity.
  - split; [discriminate | reflexivity].
  - rewrite Hdim. f_equal. f_equal. apply Hzero. reflexivity.
Defined.

(** X15. Scaling is idempotent: a bitmap that already has the new
    dimensions keeps them, so an image that went through a preprocessor
    is not scaled again. *)
Theorem new_dimensions_idempotent (img : ImageBitmap) (w' h' : Z) (p : N) :
  new_dimensions img = (JS.of_Z w', JS.of_Z h') ->
  new_dimensions (mkBitmap w' h' p) = (JS.of_Z w', JS.of_Z h').
Proof.
  intros Hdim.
  assert (Hcases :
            (width img <= maxDim /\ height img <= maxDim) \/
            ((maxDim < width img \/ maxDim < height img) /\
             height img < width img) \/
            ((maxDim < width img \/ maxDim < height img) /\
             width img <= height img)) by lia.
  apply new_dimensions_unchanged; cbn [width height];
    destruct Hcases as [[Hsw Hsh] | [[Hover Hlt] | [Hover Hle]]].
  - rewrite new_dimensions_unchanged in Hdim by assumption.
    injection Hdim as Hw _. lia.
  - rewrite new_dimensions_landscape in Hdim by assumption.
    injection Hdim as Hw _. lia.
  - rewrite new_dimensions_portrait in Hdim by assumption.
    injection Hdim as Hw _.
    destruct (scaled_side_bounds (width img) (height img)) as [Hmax _];
      [unfold maxDim in *; lia | lia |].
    cbv zeta in Hmax. lia.
  - rewrite new_dimensions_unchanged in Hdim by assumption.
    injection Hdim as _ Hh. lia.
  - rewrite new_dimensions_landscape in Hdim by assumption.
    injection Hdim as _ Hh.
    destruct (scaled_side_bounds (height img) (width img)) as [Hmax _];
      [unfold maxDim in *; lia | lia |].
    cbv zeta in Hmax. lia.
  - rewrite new_dimensions_portrait in Hdim by assumption.
    injection Hdim as _ Hh. lia.
Qed.

Lemma new_dimensions_idempotent_witness :
  new_dimensions (mkBitmap 2048 1024 9) = (JS.of_Z 2048, JS.of_Z 1024).
Proof.
  apply (new_dimensions_idempotent Samples.large_bitmap 2048 1024 9).
  reflexivity.
Defined.

(** * Further properties of the progress animations *)

Local Open Scope Q_scope.



(** X16. The page does not cancel its animation when the mutation
    succeeds: if a callback is still registered, the frame that follows
    the success replaces the 100 by a value of at most 95, while the
    result stays shown. *)
Theorem late_frame_overwrites_completion
    (st : Home.state) (data : CompressionResult) (timestamp : Q) :
  Home.frame_requested st = true ->
  let final :=
    Home.run [Home.MutationSuccess data; Home.AnimationFrame timestamp] st in
  Home.progress (Home.run [Home.MutationSuccess data] st) = 100 /\
  Home.progress final <= 95 /\
  Home.compressionResult final = Some data /\
  Home.isLoading final = false /\
  Home.stage final = Home.idle.
Proof.
  intros Hreq final. unfold final, Home.run.
  cbn [fold_left Home.step Home.onSuccess Home.frame_requested].
  rewrite Hreq. split; [reflexivity |]. split; [apply animate_capped |].
  repeat split.
Qed.

Lemma late_frame_overwrites_completion_witness :
  Home.progress
    (Home.run [Home.AnimationFrame 1000; Home.MutationSuccess
                 (mkResult true 10 3 7 (JS.of_Z 70) "data:," "image/webp" "image/png");
               Home.AnimationFrame 1016]
       (Home.begin_compressing Samples.home_initial)) <= 95.
Proof.
  destruct (late_frame_overwrites_completion
              (Home.run [Home.AnimationFrame 1000]
                 (Home.begin_compressing Samples.home_initial))
              (mkResult true 10 3 7 (JS.of_Z 70) "data:," "image/webp" "image/png")
              1016) as (_ & Hle & _).
  - reflexivity.
  - exact Hle.
Defined.





(** * Properties of the first route handler *)

Local Open Scope Z_scope.

(** X19. The first route handler never converts: whatever format is
    requested, it makes the requests of a request for the source format
    and none with conversion options; where that request succeeds, the
    request for another format succeeds with the same bytes and sizes,
    labelled with the requested format. *)
Theorem first_route_only_relabels (w : world) (input : compression_input) :
  existsb is_conversion_call (snd (RouteV1.POST input w [])) = false /\
  snd (RouteV1.POST input w []) =
    snd (RouteV1.POST (without_conversion input) w []) /\
  forall r,
    fst (RouteV1.POST (without_conversion input) w []) =
      Returned (Route.mkNext 200 (Route.ResultBody r)) ->
    exists payload,
      compressedImage r = data_uri (mimeType input) payload /\
      fst (RouteV1.POST input w []) =
        Returned
          (Route.mkNext 200
             (Route.ResultBody
                (mkResult true (originalSize r) (compressedSize r)
                   (savedBytes r) (compressionRatio r)
                   (data_uri (outputFormat input) payload)
                   (originalType r) (mime_string (outputFormat input))))).
Proof.
  unfold RouteV1.POST, try_catch, RouteV1.POST_body.
  change (source_request (without_conversion input)) with (source_request input).
  change (shrink_request (without_conversion input)) with (shrink_request input).
  cbn [without_conversion mimeType outputFormat].
  rewrite mime_eqb_refl.
  destruct (mime_eqb (outputFormat input) (mimeType input)) eqn:E.
  - apply mime_eqb_eq in E. rewrite E.
    run_orchestrator; (split; [reflexivity |]); (split; [reflexivity |]);
      intros res Hres; try discriminate.
    injection Hres as <-. eexists. split; reflexivity.
  - run_orchestrator; (split; [reflexivity |]); (split; [reflexivity |]);
      intros res Hres; try discriminate.
    injection Hres as <-. eexists. split; reflexivity.
Qed.

Lemma first_route_only_relabels_witness :
  exists payload,
    fst (RouteV1.POST Samples.webp_to_png Samples.shrinking_binary []) =
      Returned
        (Route.mkNext 200
           (Route.ResultBody
              (mkResult true 10 3 7 (JS.of_Z 70)
                 (data_uri image_png payload) "image/webp" "image/png"))).
Proof.
  destruct (first_route_only_relabels Samples.shrinking_binary
              Samples.webp_to_png) as (_ & _ & Hrelabel).
  destruct (Hrelabel
              (mkResult true 10 3 7 (JS.of_Z 70)
                 (data_uri image_webp [x02; x03; x04]) "image/webp" "image/webp")
              eq_refl) as (payload & _ & Hrun).
  exists payload. exact Hrun.
Defined.

(** * Properties of the procedure that receives a data URL *)

(** X20. The prefix that the procedure strips is the one that the
    orchestrators write: stripping the data URI of a payload, for each
    of the five supported types, leaves the base64 text of the payload. *)
Theorem data_url_prefix_is_stripped (t : mime) (payload : list byte) :
  Legacy.strip_data_url_prefix (data_uri t payload) = toString_base64 payload.
Proof.
  destruct t; reflexivity.
Qed.

Lemma bind_output_of {A} (v : json_value) (k : tiny_output -> M A) w log :
  bind (Legacy.output_of (Some v)) k w log =
  match json_output v with
  | Some o => k o w log
  | None =>
      (Thrown (Error "Cannot read properties of undefined (reading 'url')"), log)
  end.
Proof. unfold bind, Legacy.output_of. destruct (json_output v); reflexivity. Qed.

Lemma bind_output_of_null {A} (k : tiny_output -> M A) w log :
  bind (Legacy.output_of None) k w log =
  (Thrown (Error "Cannot read properties of null (reading 'output')"), log).
Proof. reflexivity. Qed.

(** X21. In every result of this procedure the saved bytes and the
    compressed size add up to the original size, and the first request
    made is the shrink call with the decoded bytes: the source is never
    fetched. *)
Theorem legacy_savings_add_up
    (decode : string -> list byte) (w : world)
    (input : Legacy.legacy_input) (r : CompressionResult) :
  fst (Legacy.compress decode input w []) = Returned r ->
  savedBytes r + compressedSize r = originalSize r /\
  originalType r = mime_string (Legacy.legacy_mimeType input) /\
  exists rest,
    snd (Legacy.compress decode input w []) =
      shrink_request (Legacy.as_input input)
        (decode (Legacy.strip_data_url_prefix (Legacy.imageBase64 input)))
      :: rest.
Proof.
  unfold Legacy.compress, try_catch, Legacy.compress_body.
  repeat (first [ rewrite bind_output_of | rewrite bind_output_of_null | run_orchestrator ]);
    intros H; try discriminate; injection H as <-;
    cbn [savedBytes compressedSize originalSize originalType];
    (split; [lia |]); (split; [reflexivity |]); eexists; reflexivity.
Qed.

Lemma legacy_savings_add_up_witness :
  3 + 3 = 6 /\
  "image/jpeg"%string = mime_string image_jpeg /\
  exists rest,
    snd (Legacy.compress Fixtures.decode_base64 Fixtures.legacy_jpeg
           Fixtures.legacy_plain []) =
      shrink_request (Legacy.as_input Fixtures.legacy_jpeg)
        [x00; x01; x02; x03; x04; x05] :: rest.
Proof.
  apply (legacy_savings_add_up Fixtures.decode_base64 Fixtures.legacy_plain
           Fixtures.legacy_jpeg
           (mkResult true 6 3 3 (JS.of_Z 50)
              (data_uri image_jpeg [x00; x01; x02; x03; x04])
              "image/jpeg" "image/jpeg")).
  vm_compute. reflexivity.
Defined.

(** X22. After a conversion that is answered by a descriptor, this
    procedure reports what phase 1 declared, not what it downloaded:
    [compressedSize] is the size declared by the descriptor of phase 1,
    [savedBytes] is the difference to the decoded input, not clamped,
    the data URI carries the converted bytes under the type of the
    source, and [outputType] is the type declared by phase 1 (the type
    of the source when that is empty). *)
Theorem legacy_conversion_reports_phase_one
    (decode : string -> list byte) (w : world) (input : Legacy.legacy_input)
    (shrunk converted downloaded : response)
    (data data' : json_value) (out out' : tiny_output) :
  let imageBuffer :=
    decode (Legacy.strip_data_url_prefix (Legacy.imageBase64 input)) in
  let apiOptions := Router.apiOptions_of (Legacy.as_input input) in
  let shrink := shrink_request (Legacy.as_input input) imageBuffer in
  Legacy.legacy_mimeType input <> Legacy.legacy_outputFormat input ->
  w [] shrink = Responds shrunk -> ok shrunk = true ->
  json shrunk = Parsed data -> json_output data = Some out ->
  w [shrink] (convert_request (out_url out) apiOptions) = Responds converted ->
  ok converted = true ->
  is_json_content_type (content_type converted) = true ->
  json converted = Parsed data' -> json_output data' = Some out' ->
  w [shrink; convert_request (out_url out) apiOptions]
    (download_request (out_url out') false) = Responds downloaded ->
  ok downloaded = true ->
  fst (Legacy.compress decode input w []) =
    Returned
      (mkResult true
         (byteLength imageBuffer) (out_size out)
         (byteLength imageBuffer - out_size out)
         (percent_of_difference (byteLength imageBuffer) (out_size out))
         (data_uri (Legacy.legacy_mimeType input) (body downloaded))
         (mime_string (Legacy.legacy_mimeType input))
         (or_default (Some (out_type out))
            (mime_string (Legacy.legacy_mimeType input)))).
Proof.
  intros imageBuffer apiOptions shrink Hne Hshr Hok1 Hjson Hout Hconv Hok2 Hct
    Hjson' Hout' Hdl Hok3.
  assert (Hc : api_convert apiOptions = Some (Legacy.legacy_outputFormat input)).
  { apply (router_convert_set (Legacy.as_input input)). exact Hne. }
  unfold Legacy.compress, try_catch, Legacy.compress_body.
  fold imageBuffer. fold apiOptions. fold shrink.
  repeat (first [ rewrite bind_output_of | rewrite bind_output_of_null | follow_answers ]).
  reflexivity.
Qed.

Lemma legacy_conversion_reports_phase_one_witness :
  exists r,
    fst (Legacy.compress Fixtures.decode_base64 Fixtures.legacy_to_png
           Fixtures.legacy_conversion []) = Returned r /\
    originalSize r = 6 /\ compressedSize r = 3 /\ savedBytes r = 3 /\
    compressionRatio r = JS.of_Z 50 /\
    outputType r = "image/jpeg"%string.
Proof.
  rewrite (legacy_conversion_reports_phase_one Fixtures.decode_base64
             Fixtures.legacy_conversion Fixtures.legacy_to_png
             (Samples.descriptor Samples.shrunk_location)
             (Samples.descriptor Samples.converted_location)
             (Samples.image "image/png" (repeat x01 9))
             (mkJson None (Some Samples.shrunk_location))
             (mkJson None (Some Samples.converted_location))
             Samples.shrunk_location Samples.converted_location).
  - eexists. split; [reflexivity |]. repeat split.
  - discriminate.
  - reflexivity.
  - reflexivity.
  - reflexivity.
  - reflexivity.
  - reflexivity.
  - reflexivity.
  - reflexivity.
  - reflexivity.
  - reflexivity.
  - reflexivity.
  - reflexivity.
Defined.

(** * Properties of the uploading page *)

Lemma supported_iff (t : string) :
  UploadFlow.supported t = true <-> exists m, t = mime_string m.
Proof.
  unfold UploadFlow.supported. cbn [map mime_string existsb]. split.
  - rewrite !orb_true_iff, !String.eqb_eq.
    intros [H | [H | [H | [H | [H | H]]]]]; try discriminate;
      [exists image_png | exists image_jpeg | exists image_jpg
       | exists image_webp | exists image_avif]; exact H.
  - intros [m ->]. destruct m; reflexivity.
Qed.

(** X23. The page lets through exactly the files that the schema of the
    route handler accepts and that have at most 10 MiB: a file passes
    the two checks if and only if its type is one of the five supported
    types and its size is at most 10 * 1024 * 1024 bytes. *)
Theorem validation_accepts_the_supported_types (file : File) :
  UploadFlow.validate file = Succeeds tt <->
  (exists m, type (blob file) = mime_string m) /\
  size (blob file) <= 10 * 1024 * 1024.
Proof.
  unfold UploadFlow.validate. rewrite <- supported_iff.
  destruct (UploadFlow.supported (type (blob file))); cbn [negb].
  - destruct (Z.ltb_spec (10 * 1024 * 1024) (size (blob file))); split.
    + discriminate.
    + intros [_ H']. lia.
    + intros _. split; [reflexivity | lia].
    + reflexivity.
  - split; [discriminate | intros [H _]; discriminate].
Qed.

(** X24. The progress of the upload: for a positive total and a loaded
    count within it, the value shown lies between 0 and 30; the value
    of 0 loaded of 0 is NaN and is not shown; a positive count of a
    total of 0 shows Infinity. *)
Theorem upload_progress_is_within_30 (loaded total : Z) :
  (0 < total -> 0 <= loaded <= total ->
   exists q, UploadFlow.onUploadProgress loaded total = Some (JS.Finite q) /\
             (0 <= q <= 30)%Q) /\
  UploadFlow.onUploadProgress 0 0 = None /\
  (0 < loaded ->
   UploadFlow.onUploadProgress loaded 0 = Some JS.PosInfinity).
Proof.
  split; [| split].
  - intros Htotal Hloaded. unfold UploadFlow.onUploadProgress.
    rewrite div_of_Z by lia. cbn [JS.mul JS.of_Z].
    eexists. split; [reflexivity |].
    destruct total as [| p | p]; try lia.
    unfold Qle, Qdiv, Qmult, Qinv, inject_Z. cbn [Qnum Qden].
    rewrite !Pos.mul_1_l, !Pos.mul_1_r. nia.
  - reflexivity.
  - intros Hloaded. destruct loaded as [| p | p]; try lia. reflexivity.
Qed.

Lemma upload_progress_is_within_30_witness :
  exists q, UploadFlow.onUploadProgress 512 2048 = Some (JS.Finite q) /\
            (0 <= q <= 30)%Q.
Proof.
  destruct (upload_progress_is_within_30 512 2048) as [Hwithin _].
  apply Hwithin.
  - reflexivity.
  - split; discriminate.
Defined.

Lemma or_default_truthy (a : option string) (b : string) :
  truthy b = true -> truthy (or_default a b) = true.
Proof.
  intros Hb. destruct a as [s |]; [| exact Hb]. cbn [or_default].
  destruct (truthy s) eqn:E; assumption.
Qed.

(** X25. The page against the route handler: whatever the service
    answers, the reply of POST leaves the page idle and not loading.
    After a reply of status 200 the result is shown, the value is 100
    and the animation is cancelled; after any other reply a message that
    is not empty is shown (the one of the reply, or "Failed to compress
    image") and the value and the previous result are kept. *)
Theorem page_settles_after_every_reply
    (w : world) (input : compression_input) (st : HomeUpload.state) :
  exists reply,
    fst (Route.POST input w []) = Returned reply /\
    let st' := UploadFlow.handle_reply reply st in
    HomeUpload.isLoading st' = false /\
    HomeUpload.stage st' = Home.idle /\
    ((Route.status reply = 200 /\
      exists r,
        Route.payload reply = Route.ResultBody r /\
        HomeUpload.compressionResult st' = Some r /\
        HomeUpload.progress st' = 100%Q /\
        HomeUpload.frame_requested st' = false /\
        HomeUpload.error st' = HomeUpload.error st) \/
     (Route.status reply <> 200 /\
      exists message,
        Route.payload reply = Route.ErrorBody message /\
        HomeUpload.error st' =
          Some (or_default (Some message) "Failed to compress image") /\
        truthy (or_default (Some message) "Failed to compress image") = true /\
        HomeUpload.progress st' = HomeUpload.progress st /\
        HomeUpload.compressionResult st' = HomeUpload.compressionResult st)).
Proof.
  destruct (route_reply_shape w input) as (reply & Hrun & Hshape).
  exists reply. split; [exact Hrun |].
  destruct reply as [status payload].
  cbn [Route.status Route.payload] in Hshape.
  unfold UploadFlow.handle_reply, UploadFlow.response_ok.
  cbn [Route.status Route.payload].
  destruct Hshape as [(-> & r & -> & _ & Huri) | (Hstatus & message & ->)].
  - cbn [Z.leb Z.compare Pos.compare Pos.compare_cont andb negb].
    rewrite Huri. cbn [negb]. repeat split. left. split; [reflexivity |].
    exists r. repeat split.
  - assert (Hnot : (200 <=? status) && (status <=? 299) = false)
      by (destruct Hstatus as [-> | ->]; reflexivity).
    rewrite Hnot. cbn [negb]. repeat split. right.
    split; [destruct Hstatus as [-> | ->]; discriminate |].
    exists message. repeat split. apply or_default_truthy. reflexivity.
Qed.

(** * The content type of the conversion response *)

Lemma prefix_iff (p s : string) :
  String.prefix p s = true <-> exists post, s = (p ++ post)%string.
Proof.
  revert s. induction p as [| a p IH]; intros s.
  - split; [intros _; exists s; reflexivity | intros _; destruct s; reflexivity].
  - destruct s as [| b s]; cbn [String.prefix append].
    + split; [discriminate | intros [post H]; discriminate].
    + destruct (ascii_dec a b) as [-> | Hne].
      * rewrite IH. split; intros [post H]; exists post.
        -- rewrite H. reflexivity.
        -- injection H as H. exact H.
      * split; [discriminate | intros [post H]; injection H as H _; congruence].
Qed.

Lemma includes_iff (s sub : string) :
  includes s sub = true <-> exists pre post, s = (pre ++ sub ++ post)%string.
Proof.
  induction s as [| c s IH]; cbn [includes].
  - destruct (String.prefix sub EmptyString) eqn:E.
    + split; [| reflexivity]. intros _. apply prefix_iff in E.
      destruct E as [post E]. exists EmptyString, post. exact E.
    + split; [discriminate |]. intros (pre & post & H).
      destruct pre; cbn [append] in H; [| discriminate].
      assert (Hp : String.prefix sub EmptyString = true)
        by (apply prefix_iff; exists post; exact H).
      congruence.
  - destruct (String.prefix sub (String c s)) eqn:E.
    + split; [| reflexivity]. intros _. apply prefix_iff in E.
      destruct E as [post E]. exists EmptyString, post. exact E.
    + rewrite IH. split; intros (pre & post & H).
      * exists (String c pre), post. rewrite H. reflexivity.
      * destruct pre as [| c' pre]; cbn [append] in H.
        -- assert (Hp : String.prefix sub (String c s) = true)
             by (apply prefix_iff; exists post; exact H).
           congruence.
        -- injection H as _ H. exists pre, post. exact H.
Qed.

(** X26. What counts as a descriptor: the conversion response is read
    as JSON exactly when it has a content-type header in which the text
    "application/json" occurs somewhere, so a charset parameter after it
    does not matter, and a header that only mentions it counts too. *)
Theorem descriptor_iff_header_mentions_json (contentType : option string) :
  is_json_content_type contentType = true <->
  exists pre post,
    contentType = Some (pre ++ "application/json" ++ post)%string.
Proof.
  destruct contentType as [s |]; cbn [is_json_content_type].
  - rewrite includes_iff. split; intros (pre & post & H); exists pre, post.
    + rewrite H. reflexivity.
    + injection H as H. exact H.
  - split; [discriminate | intros (pre & post & H); discriminate].
Qed.
